(** * cli_to_automation: a shallow embedding of [cli_to_automation.py]

    The script collects Huawei CLI commands, posts them to the DDT parser
    service, validates the answer, flattens the per-block results into
    automation lines and renders them.  Everything below follows the source
    function by function; Python's [str] is a sequence of Unicode code
    points, a JSON object is a finite map keyed by [str], and a raised
    exception is the [Raise] branch of [result]. *)

From Stdlib Require Import ZArith NArith List String Ascii DecimalString
  Floats.SpecFloat.
From stdpp Require Import base option list sorting countable gmap.

Open Scope N_scope.

(** ** Python strings *)

(** A [str] is a list of code points. *)
Abbreviation char := N.
Abbreviation str := (list N).

(** Literals are written as ASCII strings and read as code points. *)
Fixpoint lit (s : string) : str :=
  match s with
  | EmptyString => []
  | String a s' => N_of_ascii a :: lit s'
  end.
Arguments lit : simpl never.

Module Py.

(** [str.isspace] on one character, the table behind [str.strip()]:
    U+0009..U+000D, U+001C..U+0020, U+0085, U+00A0, U+1680,
    U+2000..U+200A, U+2028, U+2029, U+202F, U+205F, U+3000. *)
Definition isspace (c : char) : bool :=
  ((9 <=? c) && (c <=? 13)) || ((28 <=? c) && (c <=? 32))
  || (c =? 133) || (c =? 160) || (c =? 5760)
  || ((8192 <=? c) && (c <=? 8202))
  || (c =? 8232) || (c =? 8233) || (c =? 8239) || (c =? 8287)
  || (c =? 12288).

(** The line boundaries of [str.splitlines]: LF, VT, FF, CR, FS, GS, RS,
    NEL, LS, PS (CR LF counts once, see [splitlines]). *)
Definition islinebreak (c : char) : bool :=
  ((10 <=? c) && (c <=? 13)) || ((28 <=? c) && (c <=? 30))
  || (c =? 133) || (c =? 8232) || (c =? 8233).

Definition CR : char := 13.
Definition LF : char := 10.

(** [s.lstrip()], [s.rstrip()], [s.strip()]. *)
Fixpoint lstrip (s : str) : str :=
  match s with
  | c :: s' => if isspace c then lstrip s' else s
  | [] => []
  end.

Definition rstrip (s : str) : str := reverse (lstrip (reverse s)).

Definition strip (s : str) : str := rstrip (lstrip s).

(** [s.splitlines()]: [cur] is the line being read, in reverse.  A final
    line without terminator is kept when it is not empty; a terminator at
    the very end opens no further line. *)
Fixpoint splitlines_aux (cur : str) (s : str) : list str :=
  match s with
  | [] => match cur with [] => [] | _ => [reverse cur] end
  | c :: s' =>
      if islinebreak c then
        match s' with
        | d :: s'' =>
            if (c =? CR) && (d =? LF)
            then reverse cur :: splitlines_aux [] s''
            else reverse cur :: splitlines_aux [] s'
        | [] => [reverse cur]
        end
      else splitlines_aux (c :: cur) s'
  end.

Definition splitlines (s : str) : list str := splitlines_aux [] s.

(** [sep.join(parts)]. *)
Fixpoint join (sep : str) (parts : list str) : str :=
  match parts with
  | [] => []
  | [p] => p
  | p :: rest => p ++ sep ++ join sep rest
  end.

(** [s.startswith(prefix)]. *)
Fixpoint startswith (s prefix : str) : bool :=
  match prefix, s with
  | [], _ => true
  | p :: prefix', c :: s' => (c =? p) && startswith s' prefix'
  | _ :: _, [] => false
  end.

(** Truth value of a [str] or of a list: empty is false. *)
Definition nonempty {A} (l : list A) : bool :=
  match l with [] => false | _ => true end.

(** [a < b] on [str]: code point by code point, a proper prefix is smaller. *)
Fixpoint str_ltb (a b : str) : bool :=
  match a, b with
  | [], [] => false
  | [], _ :: _ => true
  | _ :: _, [] => false
  | x :: a', y :: b' => (x <? y) || ((x =? y) && str_ltb a' b')
  end.

End Py.

(** ** JSON values, as [json.loads] and [response.json()] build them *)

#[warnings="-register-all"]
Inductive json : Type :=
  | JNull
  | JBool (b : bool)
  | JInt (z : Z)
  | JFloat (f : spec_float)
  | JStr (s : str)
  | JArr (l : list json)
  | JObj (m : gmap (list N) json).

(** Truth value of a JSON value ([if v:]). *)
Definition truthy (v : json) : bool :=
  match v with
  | JNull => false
  | JBool b => b
  | JInt z => negb (z =? 0)%Z
  | JFloat (S754_zero _) => false
  | JFloat _ => true
  | JStr s => Py.nonempty s
  | JArr l => Py.nonempty l
  | JObj m => Py.nonempty (map_to_list m)
  end.

(** [d.get(k)] and [d.get(k, dflt)] on a dict. *)
Definition dict_get (d : gmap (list N) json) (k : str) : json :=
  default JNull (d !! k).

Definition dict_get_or (d : gmap (list N) json) (k : str) (dflt : json) : json :=
  default dflt (d !! k).

(** [v != s] for a string literal [s]: only the same string is equal. *)
Definition ne_str (v : json) (s : str) : bool :=
  match v with
  | JStr t => negb (bool_decide (t = s))
  | _ => true
  end.

(** ** Exceptions *)

(** The classes of [requests.exceptions] that [main] tells apart.
    [ConnectTimeout] derives from both [ConnectionError] and [Timeout]. *)
Inductive requests_class : Type :=
  | ConnectionError
  | ConnectTimeout
  | Timeout
  | HTTPError
  | JSONDecodeError
  | OtherRequestException.

Inductive exc : Type :=
  | AttributeError
  | ValueError (msg : str)
  | FileNotFoundError (msg : str)
  | OSError (errno winerror : option Z) (msg : str)
  | RequestException (cls : requests_class) (msg : str)
  | OtherException (msg : str).

Inductive result (A : Type) : Type :=
  | Ok (a : A)
  | Raise (e : exc).
Arguments Ok {A} a.
Arguments Raise {A} e.

(** Sequencing stops at the first exception. *)
#[global] Instance result_bind : MBind result := fun A B k r =>
  match r with
  | Ok a => k a
  | Raise e => Raise e
  end.

(** ** The environment: files and the HTTP endpoint *)

Record http_request : Type := {
  req_url : str;
  req_json : json;
  req_timeout : Z;
  req_headers : list (str * str)
}.

(** What [requests.post] hands back: the status code, the text that
    [raise_for_status] puts in its [HTTPError], and what [response.json()]
    returns or raises. *)
Record http_response : Type := {
  status_code : Z;
  http_error_msg : str;
  response_json : result json
}.

(** What [os.stat] does on a path: it succeeds, it raises an [OSError]
    that carries [errno] and [winerror], or it raises a [ValueError] for
    a path that cannot be encoded. *)
Inductive stat_outcome : Type :=
  | StatOk
  | StatOSError (errno winerror : option Z) (msg : str)
  | StatValueError.

Record world : Type := {
  path_stat : str -> stat_outcome;
  path_read_text : str -> result str;
  path_write_text : str -> str -> result unit;
  requests_post : http_request -> result http_response
}.

(** The error numbers [pathlib] reads as "no such path". *)
Definition ENOENT : Z := 2.
Definition EBADF : Z := 9.
Definition ENOTDIR : Z := 20.
Definition ELOOP : Z := 40.

Definition IGNORED_ERRNOS : list Z := [ENOENT; ENOTDIR; EBADF; ELOOP].
Definition IGNORED_WINERRORS : list Z := [21; 123; 1921]%Z.

(** [pathlib._ignore_error]: an attribute that is [None] is in neither
    tuple. *)
Definition ignore_error (errno winerror : option Z) : bool :=
  match errno with
  | Some n => bool_decide (n ∈ IGNORED_ERRNOS)
  | None => false
  end
  || match winerror with
     | Some n => bool_decide (n ∈ IGNORED_WINERRORS)
     | None => false
     end.

(** [Path(p).exists()]: [stat] is tried; an ignored [OSError] and a
    [ValueError] mean [False], any other [OSError] is raised again. *)
Definition path_exists (w : world) (p : str) : result bool :=
  match path_stat w p with
  | StatOk => Ok true
  | StatOSError errno winerror msg =>
      if ignore_error errno winerror then Ok false
      else Raise (OSError errno winerror msg)
  | StatValueError => Ok false
  end.

(** [response.raise_for_status()]: client and server error codes raise. *)
Definition raise_for_status (r : http_response) : result unit :=
  if ((400 <=? status_code r) && (status_code r <? 600))%Z
  then Raise (RequestException HTTPError (http_error_msg r))
  else Ok tt.

(** ** Sorting the items of a dict *)

(** [sorted(result.items())] compares [(key, entry)] tuples; the keys of a
    dict are pairwise distinct, so the comparison is settled by the keys. *)
Definition item_le (x y : str * json) : Prop := Py.str_ltb y.1 x.1 = false.

#[global] Instance item_le_dec : RelDecision item_le.
Proof. intros x y. unfold item_le. apply _. Defined.

Definition sorted_items (d : gmap (list N) json) : list (str * json) :=
  merge_sort item_le (map_to_list d).

(** ** The program *)

(** The one-character string of a line feed. *)
Definition NL : str := [Py.LF].

Definition DDT_API_URL : str :=
  lit "http://ddt.rnd.huawei.com:12240/ddt_cli_parser/testbot_query".
Definition DEFAULT_TIMEOUT : Z := 60.

(** [str(n)] for an [int]. *)
Definition str_of_int (z : Z) : str :=
  lit (NilZero.string_of_int (Z.to_int z)).

(** What a run of [main] does, in order, and how it ends. *)
Inductive event : Type :=
  | Print (s : str)
  | PrintStderr (s : str)
  | ParserError (message : str)
  | WriteText (path content : str).

Inductive termination : Type :=
  | Returned
  | SysExit (code : Z)
  | Uncaught (e : exc).

(** The parsed command line, [args]. *)
Record Namespace : Type := {
  product : list str;
  cli : option (list str);
  cli_file : option str;
  output : option str;
  timeout : Z;
  output_json : bool;
  api_url : str
}.

Section Program.

(** [str(v)] for a JSON value that is not a [str] ([None], numbers, lists
    and dicts as Python prints them) is taken from outside. *)
Variable repr_value : json -> str.

(** What an f-string puts in a [{v}] field. *)
Definition format_value (v : json) : str :=
  match v with
  | JStr s => s
  | _ => repr_value v
  end.

(** The request body of [call_ddt_api]. *)
Definition payload (cli_commands products : list str) : json :=
  let cli_block := Py.join NL cli_commands in
  JObj (<[lit "applicable_products" := JArr (JStr <$> products)]>
        (<[lit "block_clis" := JArr [JStr cli_block]]> ∅)).

(** The arguments of [requests.post]. *)
Definition ddt_request (cli_commands products : list str) (timeout : Z)
    : http_request :=
  {| req_url := DDT_API_URL;
     req_json := payload cli_commands products;
     req_timeout := timeout;
     req_headers := [(lit "Content-Type", lit "application/json");
                     (lit "Accept", lit "application/json")] |}.

Definition call_ddt_api (w : world) (cli_commands products : list str)
    (timeout : Z) : result json :=
  response ← requests_post w (ddt_request cli_commands products timeout);
  _ ← raise_for_status response;
  data ← response_json response;
  match data with
  | JObj d =>
      if ne_str (dict_get d (lit "status")) (lit "SUCCESS")
      then Raise (ValueError (lit "API error: " ++
             format_value (dict_get_or d (lit "message")
                                       (JStr (lit "Unknown error")))))
      else Ok data
  | _ => Raise AttributeError
  end.

(** The inner loop of [extract_automation_lines]: [lines] is the list
    being appended to. *)
Fixpoint extract_output (split : list str) (lines : list str) : list str :=
  match split with
  | [] => lines
  | line :: split' =>
      let stripped := Py.strip line in
      if Py.nonempty stripped
      then extract_output split' (lines ++ [stripped])
      else extract_output split' lines
  end.

(** The outer loop, over the sorted items. *)
Fixpoint extract_entries (items : list (str * json)) (lines : list str)
    : result (list str) :=
  match items with
  | [] => Ok lines
  | (_key, JObj entry) :: items' =>
      if ne_str (dict_get entry (lit "status")) (lit "SUCCESS") then
        let error_msg :=
          dict_get_or entry (lit "error_message") (JStr (lit "Unknown error")) in
        extract_entries items' (lines ++ [lit "# ERROR: " ++ format_value error_msg])
      else
        let output := dict_get_or entry (lit "output_lines") (JStr []) in
        if truthy output then
          match output with
          | JStr s =>
              extract_entries items'
                (extract_output (Py.splitlines (Py.strip s)) lines)
          | _ => Raise AttributeError
          end
        else extract_entries items' lines
  | (_key, _) :: _ => Raise AttributeError
  end.

Definition extract_automation_lines (api_response : json)
    : result (list str) :=
  match api_response with
  | JObj d =>
      match dict_get_or d (lit "result") (JObj ∅) with
      | JObj result => extract_entries (sorted_items result) []
      | _ => Raise AttributeError
      end
  | _ => Raise AttributeError
  end.

Definition generate_script (automation_lines products cli_commands : list str)
    : str :=
  if negb (Py.nonempty automation_lines)
  then lit "# No automation lines generated" ++ NL
  else Py.join NL automation_lines ++ NL.

(** The loop of [read_cli_from_file]. *)
Fixpoint read_commands (split : list str) (commands : list str) : list str :=
  match split with
  | [] => commands
  | line :: split' =>
      let stripped := Py.strip line in
      if Py.nonempty stripped && negb (Py.startswith stripped (lit "#"))
      then read_commands split' (commands ++ [stripped])
      else read_commands split' commands
  end.

Definition read_cli_from_file (w : world) (filepath : str)
    : result (list str) :=
  found ← path_exists w filepath;
  if negb found
  then Raise (FileNotFoundError (lit "CLI file not found: " ++ filepath))
  else
    text ← path_read_text w filepath;
    Ok (read_commands (Py.splitlines text) []).

(** [json.dumps(v, indent=2, ensure_ascii=False)] is taken from outside. *)
Variable json_dumps : json -> str.

(** The branch that gathers [cli_commands]. *)
Definition gather_cli_commands (w : world) (args : Namespace)
    : result (option (list str)) :=
  match cli_file args with
  | Some filepath =>
      if Py.nonempty filepath
      then cli_commands ← read_cli_from_file w filepath; Ok (Some cli_commands)
      else Ok (cli args)
  | None => Ok (cli args)
  end.

(** The [except] clauses around the call, in the order they are tried. *)
Definition handle_api_error (args : Namespace) (e : exc)
    : list event * termination :=
  match e with
  | RequestException ConnectionError _
  | RequestException ConnectTimeout _ =>
      ([PrintStderr (lit "Error: Cannot connect to DDT API. Are you on the internal network?")],
       SysExit 1)
  | RequestException Timeout _ =>
      ([PrintStderr (lit "Error: API request timed out after " ++
                     str_of_int (timeout args) ++ lit "s.")],
       SysExit 1)
  | RequestException _ msg | ValueError msg =>
      ([PrintStderr (lit "Error: " ++ msg)], SysExit 1)
  | _ => ([], Uncaught e)
  end.

(** The rendering branch: raw JSON or the script. *)
Definition render_output (args : Namespace) (api_response : json)
    (cli_commands : list str) : result str :=
  if output_json args
  then Ok (json_dumps api_response)
  else
    automation_lines ← extract_automation_lines api_response;
    Ok (generate_script automation_lines (product args) cli_commands).

Definition write_output (w : world) (args : Namespace) (out : str)
    : list event * termination :=
  match output args with
  | Some path =>
      if Py.nonempty path then
        match path_write_text w path out with
        | Ok _ =>
            ([WriteText path out; Print (lit "Script written to: " ++ path)],
             Returned)
        | Raise e => ([], Uncaught e)
        end
      else ([Print out], Returned)
  | None => ([Print out], Returned)
  end.

Definition main (w : world) (args : Namespace) : list event * termination :=
  match gather_cli_commands w args with
  | Raise e => ([], Uncaught e)
  | Ok None | Ok (Some []) =>
      ([ParserError (lit "No CLI commands provided.")], SysExit 2)
  | Ok (Some cli_commands) =>
      match call_ddt_api w cli_commands (product args) (timeout args) with
      | Raise e => handle_api_error args e
      | Ok api_response =>
          match render_output args api_response cli_commands with
          | Raise e => ([], Uncaught e)
          | Ok out => write_output w args out
          end
      end
  end.

End Program.

(** ** Specifications in the words of the document, and sample data *)

(** Items in strictly ascending key order. *)
Definition item_lt (x y : str * json) : Prop := Py.str_ltb x.1 y.1 = true.

(** The lines of one output blob in the words of the specification: strip
    the blob, split it into lines, strip each line, drop the empty ones. *)
Definition spec_output_lines (s : str) : list str :=
  filter (λ l, l ≠ []) (Py.strip <$> Py.splitlines (Py.strip s)).

(** The lines one result entry stands for, in the words of the
    specification; [None] for an entry that is not a record of that shape
    (not an object, or an output that is no text). *)
Definition spec_entry_lines (repr_value : json -> str) (entry : json)
    : option (list str) :=
  match entry with
  | JObj e =>
      if ne_str (dict_get e (lit "status")) (lit "SUCCESS") then
        Some [lit "# ERROR: " ++
              match e !! lit "error_message" with
              | Some msg => format_value repr_value msg
              | None => lit "Unknown error"
              end]
      else
        match e !! lit "output_lines" with
        | None => Some []
        | Some (JStr s) => Some (spec_output_lines s)
        | Some other => if truthy other then None else Some []
        end
  | _ => None
  end.

(** A response that carries just a result map. *)
Definition response_fields (result : gmap (list N) json)
    : gmap (list N) json :=
  <[lit "status" := JStr (lit "SUCCESS")]> {[lit "result" := JObj result]}.

Definition response_of (result : gmap (list N) json) : json :=
  JObj (response_fields result).

Definition success_fields (output_lines : str) : gmap (list N) json :=
  <[lit "status" := JStr (lit "SUCCESS")]>
    {[lit "output_lines" := JStr output_lines]}.

Definition success_entry (output_lines : str) : json :=
  JObj (success_fields output_lines).

Definition failed_fields (status error_message : str) : gmap (list N) json :=
  <[lit "status" := JStr status]>
    {[lit "error_message" := JStr error_message]}.

Definition failed_entry (status error_message : str) : json :=
  JObj (failed_fields status error_message).

(** The text ["  foo  \n\nbar\n"]. *)
Definition foo_bar_blob : str :=
  lit "  foo  " ++ NL ++ NL ++ lit "bar" ++ NL.

(** A result map filled in the order "2", "1", "10". *)
Definition result_2_1_10 : gmap (list N) json :=
  <[lit "10" := success_entry (lit "ten")]>
    (<[lit "1" := failed_entry (lit "FAIL") (lit "one")]>
       {[lit "2" := success_entry (lit "two" ++ NL ++ lit "deux")]}).

(** The text after ["API error: "]: the message field, or
    ["Unknown error"] without one. *)
Definition api_error_message (repr_value : json -> str)
    (d : gmap (list N) json) : str :=
  match d !! lit "message" with
  | Some (JStr msg) => msg
  | Some other => repr_value other
  | None => lit "Unknown error"
  end.

(** What [stat] answers where there is nothing. *)
Definition no_such_file : stat_outcome :=
  StatOSError (Some ENOENT) None (lit "No such file or directory").

(** Worlds to run the program in. *)
Definition offline : world :=
  {| path_stat := λ _, no_such_file;
     path_read_text := λ _, Raise (OtherException []);
     path_write_text := λ _ _, Ok tt;
     requests_post := λ _, Raise (RequestException ConnectionError []) |}.

Definition answering (code : Z) (body : json) : world :=
  {| path_stat := λ _, no_such_file;
     path_read_text := λ _, Raise (OtherException []);
     path_write_text := λ _ _, Ok tt;
     requests_post := λ _,
       Ok {| status_code := code; http_error_msg := []; response_json := Ok body |} |}.

Definition with_file (path text : str) : world :=
  {| path_stat := λ p,
       if bool_decide (p = path) then StatOk else no_such_file;
     path_read_text := λ p,
       if bool_decide (p = path) then Ok text else Raise (OtherException []);
     path_write_text := λ _ _, Ok tt;
     requests_post := λ _, Raise (RequestException ConnectionError []) |}.

Definition direct_args (products commands : list str) : Namespace :=
  {| product := products; cli := Some commands; cli_file := None;
     output := None; timeout := DEFAULT_TIMEOUT; output_json := false;
     api_url := DDT_API_URL |}.

Definition file_args (products : list str) (path : str) : Namespace :=
  {| product := products; cli := None; cli_file := Some path;
     output := None; timeout := DEFAULT_TIMEOUT; output_json := false;
     api_url := DDT_API_URL |}.

(** A command line to keep: not empty and not a comment. *)
Definition is_command (l : str) : Prop :=
  l ≠ [] /\ Py.startswith l (lit "#") = false.

#[global] Instance is_command_dec (l : str) : Decision (is_command l).
Proof. unfold is_command. apply _. Defined.

(** The file text of the lines "display this", "", "# comment",
    "system-view". *)
Definition commands_txt : str :=
  lit "display this" ++ NL ++ NL ++ lit "# comment" ++ NL ++
  lit "system-view" ++ NL.

(** A file whose lines are padded with blanks and tabs: "  display this  ",
    a line of three blanks, a tab before "# comment", "system-view" with
    a tab behind, and " ospf 1" without line end. *)
Definition padded_commands_txt : str :=
  lit "  display this  " ++ NL ++ lit "   " ++ NL ++
  [9] ++ lit "# comment" ++ NL ++ lit "system-view" ++ [9] ++ NL ++
  lit " ospf 1".



(** The joined commands in the words of the specification: the commands
    one after the other, a line feed before each but the first. *)
Definition spec_joined_commands (first : str) (others : list str) : str :=
  first ++ concat ((λ c, [10] ++ c) <$> others).

(** A body the service sends when it rejects the request. *)
Definition rejected_fields : gmap (list N) json :=
  <[lit "status" := JStr (lit "FAIL")]> {[lit "message" := JStr (lit "boom")]}.

(** A body that passes the status check and carries no result. *)
Definition bare_success_fields : gmap (list N) json :=
  {[lit "status" := JStr (lit "SUCCESS")]}.

Definition no_repr : json -> str := λ _, [].

(** ** Notions used by the further properties *)

(** No line boundary occurs in the string. *)
Definition no_linebreak (s : str) : Prop :=
  Forall (λ c, Py.islinebreak c = false) s.

(** Nothing is left for [strip] to remove. *)
Definition stripped (s : str) : Prop := Py.strip s = s.

(** [args] with another [--api-url]. *)
Definition with_api_url (url : str) (args : Namespace) : Namespace :=
  {| product := product args; cli := cli args; cli_file := cli_file args;
     output := output args; timeout := timeout args;
     output_json := output_json args; api_url := url |}.

(** A blank line or a comment line of a command file. *)
Definition skipped_line (line : str) : Prop :=
  Py.strip line = [] \/ Py.startswith (Py.strip line) (lit "#") = true.

(** A line taken over from an output text. *)
Definition output_line (l : str) : Prop :=
  l ≠ [] /\ stripped l /\ no_linebreak l.

(** A line the extractor can return: an error marker or an output line. *)
Definition automation_line (l : str) : Prop :=
  (exists msg, l = lit "# ERROR: " ++ msg) \/ output_line l.

(** A command as [read_cli_from_file] returns it. *)
Definition file_command (c : str) : Prop :=
  c ≠ [] /\ stripped c /\ no_linebreak c /\ Py.startswith c (lit "#") = false.

(** [args] with [--output] not given. *)
Definition without_output (args : Namespace) : Namespace :=
  {| product := product args; cli := cli args; cli_file := cli_file args;
     output := None; timeout := timeout args;
     output_json := output_json args; api_url := api_url args |}.

(** ** Further sample data *)

(** A command file with a comment and a blank line, and nothing else. *)
Definition comments_txt : str :=
  lit "# only a comment" ++ NL ++ lit "   " ++ NL.

(** [--output ""]. *)
Definition empty_output_args : Namespace :=
  {| product := [lit "USG6000F"]; cli := Some [lit "display this"];
     cli_file := None; output := Some []; timeout := DEFAULT_TIMEOUT;
     output_json := false; api_url := DDT_API_URL |}.

(** The answer of a server in trouble. *)
Definition unavailable : http_response :=
  {| status_code := 503; http_error_msg := lit "503 Server Error";
     response_json := Raise (RequestException JSONDecodeError []) |}.

(** A world whose endpoint answers with the given response. *)
Definition responding (response : http_response) : world :=
  {| path_stat := λ _, no_such_file;
     path_read_text := λ _, Raise (OtherException []);
     path_write_text := λ _ _, Ok tt;
     requests_post := λ _, Ok response |}.

(** A world whose endpoint fails with the given exception. *)
Definition failing (e : exc) : world :=
  {| path_stat := λ _, no_such_file;
     path_read_text := λ _, Raise (OtherException []);
     path_write_text := λ _ _, Ok tt;
     requests_post := λ _, Raise e |}.

(** A result map with a good entry and an entry that is a bare string. *)
Definition result_with_string : gmap (list N) json :=
  <[lit "b" := JStr (lit "oops")]> {[lit "a" := success_entry (lit "fine")]}.

(** An entry whose output comes as a list of lines. *)
Definition listed_output_fields : gmap (list N) json :=
  <[lit "status" := JStr (lit "SUCCESS")]>
    {[lit "output_lines" := JArr [JStr (lit "line")]]}.

(** A result map whose entries have all failed. *)
Definition result_all_failed : gmap (list N) json :=
  <[lit "b" := failed_entry (lit "FAIL") (lit "bad syntax")]>
    {[lit "a" := JObj ∅]}.

(** An output text of blanks and line ends. *)
Definition blank_blob : str := lit "  " ++ NL ++ lit " " ++ NL.

(** * Properties *)

(** ** The string primitives on sample texts *)

Example splitlines_sample :
  Py.splitlines (lit "a" ++ [13; 10] ++ lit "b" ++ [10; 10] ++ lit "c" ++ [13])
  = [lit "a"; lit "b"; []; lit "c"].
Proof. reflexivity. Qed.

Example strip_sample :
  Py.strip ([160; 9] ++ lit "x y" ++ [8232; 32]) = lit "x y".
Proof. reflexivity. Qed.

Example str_ltb_sample :
  Py.str_ltb (lit "10") (lit "2") = true /\ Py.str_ltb (lit "1") (lit "10") = true.
Proof. split; reflexivity. Qed.

Example main_sample :
  main no_repr no_repr
    (answering 200 (response_of {[lit "a" := success_entry foo_bar_blob]}))
    (direct_args [lit "USG6000F"] [lit "display this"])
  = ([Print (lit "foo" ++ [10] ++ lit "bar" ++ [10])], Returned).
Proof. vm_compute. reflexivity. Qed.

(** ** The order on strings *)

Section StringOrder.

Lemma str_ltb_irrefl (a : str) : Py.str_ltb a a = false.
Proof.
  induction a as [|x a IH]; simpl; [done|].
  rewrite N.ltb_irrefl, N.eqb_refl. exact IH.
Qed.

Lemma str_ltb_trans (a b c : str) :
  Py.str_ltb a b = true -> Py.str_ltb b c = true -> Py.str_ltb a c = true.
Proof.
  revert b c. induction a as [|x a IH]; intros [|y b] [|z c]; simpl; try done.
  intros Hab Hbc.
  apply orb_true_iff in Hab as [Hxy|[Hxy Hab]%andb_true_iff];
    apply orb_true_iff in Hbc as [Hyz|[Hyz Hbc]%andb_true_iff];
    rewrite ?N.ltb_lt, ?N.eqb_eq in *; apply orb_true_iff.
  - left. apply N.ltb_lt. lia.
  - left. apply N.ltb_lt. lia.
  - left. apply N.ltb_lt. lia.
  - right. apply andb_true_iff. split; [apply N.eqb_eq; lia|]. eauto.
Qed.

(** Two strings are equal when neither is below the other. *)
Lemma str_ltb_antisym (a b : str) :
  Py.str_ltb a b = false -> Py.str_ltb b a = false -> a = b.
Proof.
  revert b. induction a as [|x a IH]; intros [|y b]; simpl; try done.
  intros [Hxy Hab]%orb_false_iff [Hyx Hba]%orb_false_iff.
  apply N.ltb_ge in Hxy, Hyx. assert (x = y) as -> by lia.
  rewrite N.eqb_refl in Hab, Hba. simpl in *. f_equal. by apply IH.
Qed.

Lemma str_ltb_asym (a b : str) :
  Py.str_ltb a b = true -> Py.str_ltb b a = false.
Proof.
  intros Hab. destruct (Py.str_ltb b a) eqn:Hba; [|done].
  pose proof (str_ltb_trans _ _ _ Hab Hba) as Haa.
  by rewrite str_ltb_irrefl in Haa.
Qed.

#[global] Instance item_le_total : Total item_le.
Proof.
  intros x y. unfold item_le.
  destruct (Py.str_ltb y.1 x.1) eqn:E; [right|left; done].
  by apply str_ltb_asym.
Qed.

#[global] Instance item_le_trans : Transitive item_le.
Proof.
  intros x y z. unfold item_le. intros Hxy Hyz.
  destruct (Py.str_ltb z.1 x.1) eqn:Hzx; [|done].
  destruct (Py.str_ltb z.1 y.1) eqn:Hzy; [congruence|].
  destruct (Py.str_ltb x.1 y.1) eqn:Hxy'.
  - by rewrite (str_ltb_trans _ _ _ Hzx Hxy') in Hzy.
  - rewrite (str_ltb_antisym _ _ Hxy' Hxy) in Hzx. congruence.
Qed.

End StringOrder.

Lemma sorted_items_perm (d : gmap (list N) json) :
  sorted_items d ≡ₚ map_to_list d.
Proof. apply merge_sort_Permutation. Qed.

Lemma sorted_items_NoDup_keys (d : gmap (list N) json) :
  NoDup (sorted_items d).*1.
Proof.
  rewrite (sorted_items_perm d). apply NoDup_fst_map_to_list.
Qed.

Lemma sorted_le_NoDup_lt (l : list (str * json)) :
  StronglySorted item_le l -> NoDup l.*1 -> StronglySorted item_lt l.
Proof.
  induction 1 as [|x l Hl IH Hx]; simpl; [constructor|].
  intros [Hnotin Hnd]%NoDup_cons. constructor; [by apply IH|].
  apply Forall_forall. intros y Hy.
  rewrite Forall_forall in Hx. specialize (Hx y Hy).
  unfold item_le, item_lt in *.
  destruct (Py.str_ltb x.1 y.1) eqn:E; [done|].
  exfalso. apply Hnotin. rewrite (str_ltb_antisym _ _ E Hx).
  apply list_elem_of_fmap. by exists y.
Qed.

Lemma sorted_items_sorted (d : gmap (list N) json) :
  StronglySorted item_lt (sorted_items d).
Proof.
  apply sorted_le_NoDup_lt; [|apply sorted_items_NoDup_keys].
  apply StronglySorted_merge_sort; apply _.
Qed.

(** The sorted order is the only one: whichever way [sorted] proceeds, a
    rearrangement of the items in ascending key order is this list. *)
Lemma sorted_items_unique (d : gmap (list N) json) (l : list (str * json)) :
  l ≡ₚ map_to_list d -> StronglySorted item_lt l -> l = sorted_items d.
Proof.
  intros Hp Hs.
  apply (StronglySorted_unique_strong item_lt); [|done|apply sorted_items_sorted|].
  - intros x y _ _ Hxy Hyx. unfold item_lt in *.
    by rewrite (str_ltb_asym _ _ Hxy) in Hyx.
  - by rewrite Hp, sorted_items_perm.
Qed.

Lemma sorted_items_empty : sorted_items ∅ = [].
Proof. unfold sorted_items. by rewrite map_to_list_empty. Qed.

Lemma sorted_items_singleton (k : str) (v : json) :
  sorted_items {[k := v]} = [(k, v)].
Proof. unfold sorted_items. by rewrite map_to_list_singleton. Qed.

(** ** The line extractor *)

Lemma nonempty_true {A} (l : list A) : Py.nonempty l = true <-> l ≠ [].
Proof. by destruct l. Qed.

Lemma extract_output_spec (split lines : list str) :
  extract_output split lines
  = lines ++ filter (λ l, l ≠ []) (Py.strip <$> split).
Proof.
  revert lines. induction split as [|line split IH]; intros lines; simpl.
  - by rewrite app_nil_r.
  - rewrite filter_cons, IH.
    destruct (Py.strip line) as [|c stripped] eqn:E; simpl; [done|].
    by rewrite <- app_assoc.
Qed.

Lemma spec_output_lines_empty : spec_output_lines [] = [].
Proof. reflexivity. Qed.

(** The loop agrees with the specification on every list of items: the
    lines of the entries, entry after entry, behind what was there. *)
Lemma extract_entries_spec (repr_value : json -> str)
    (items : list (str * json)) (lines : list str) :
  extract_entries repr_value items lines
  = match mapM (spec_entry_lines repr_value) items.*2 with
    | Some ls => Ok (lines ++ concat ls)
    | None => Raise AttributeError
    end.
Proof.
  revert lines. induction items as [|[key entry] items IH]; intros lines.
  - simpl. by rewrite app_nil_r.
  - destruct entry as [| | | | |l|e]; try done.
    cbn [extract_entries fmap list_fmap snd mapM spec_entry_lines].
    destruct (ne_str (dict_get e (lit "status")) (lit "SUCCESS")) eqn:Hst.
    + rewrite IH. unfold dict_get_or.
      destruct (mapM (spec_entry_lines repr_value) items.*2) as [ls|]; simpl; [|done].
      destruct (e !! lit "error_message"); simpl; by rewrite <- app_assoc.
    + unfold dict_get_or.
      destruct (e !! lit "output_lines") as [o|] eqn:Ho; simpl.
      * destruct o as [|b|z|f|s|l|m]; simpl;
          try (destruct (mapM (spec_entry_lines repr_value) items.*2) eqn:E;
               rewrite ?IH, ?E; simpl; rewrite ?app_nil_r; done).
        -- destruct b; simpl; [done|]. rewrite IH.
           destruct (mapM (spec_entry_lines repr_value) items.*2); by simpl.
        -- destruct (negb (z =? 0)%Z); simpl; [done|]. rewrite IH.
           destruct (mapM (spec_entry_lines repr_value) items.*2); by simpl.
        -- destruct f; simpl; try done. rewrite IH.
           destruct (mapM (spec_entry_lines repr_value) items.*2); by simpl.
        -- destruct s as [|c s]; simpl.
           ++ rewrite IH. destruct (mapM (spec_entry_lines repr_value) items.*2); by simpl.
           ++ rewrite IH, extract_output_spec. fold (spec_output_lines (c :: s)).
              destruct (mapM (spec_entry_lines repr_value) items.*2); simpl; [|done].
              by rewrite <- app_assoc.
        -- destruct l; simpl; [|done]. rewrite IH.
           destruct (mapM (spec_entry_lines repr_value) items.*2); by simpl.
        -- destruct (Py.nonempty (map_to_list m)); simpl; [done|]. rewrite IH.
           destruct (mapM (spec_entry_lines repr_value) items.*2); by simpl.
      * rewrite IH. destruct (mapM (spec_entry_lines repr_value) items.*2); by simpl.
Qed.

Lemma ne_str_get_false (e : gmap (list N) json) (k s : str) :
  ne_str (dict_get e k) s = false <-> e !! k = Some (JStr s).
Proof.
  unfold dict_get. destruct (e !! k) as [[| | | |t| |]|]; simpl; try done.
  rewrite negb_false_iff, bool_decide_eq_true. split; congruence.
Qed.

Lemma ne_str_get_true (e : gmap (list N) json) (k s : str) :
  ne_str (dict_get e k) s = true <-> e !! k ≠ Some (JStr s).
Proof.
  rewrite <- ne_str_get_false. by destruct (ne_str (dict_get e k) s).
Qed.

Lemma extract_response_of (repr_value : json -> str)
    (result : gmap (list N) json) :
  extract_automation_lines repr_value (response_of result)
  = extract_entries repr_value (sorted_items result) [].
Proof.
  unfold extract_automation_lines, response_of, response_fields, dict_get_or.
  rewrite lookup_insert_ne by done. by rewrite lookup_singleton_eq.
Qed.

(** C1: an entry whose status is SUCCESS adds the lines of its output text
    to the list, in their order: the text stripped as a whole, split into
    lines, each line stripped, the empty ones dropped.  A result map with
    that single entry extracts to exactly these lines, and the map
    [{"a": {"status":"SUCCESS","output_lines":"  foo  \n\nbar\n"}}]
    extracts to [["foo"; "bar"]]. *)
Theorem C1_success_entry_lines (repr_value : json -> str) (key : str)
    (entry : gmap (list N) json) (s : str)
    (items : list (str * json)) (lines : list str) :
  entry !! lit "status" = Some (JStr (lit "SUCCESS")) ->
  entry !! lit "output_lines" = Some (JStr s) ->
  extract_entries repr_value ((key, JObj entry) :: items) lines
    = extract_entries repr_value items
        (lines ++ filter (λ l, l ≠ []) (Py.strip <$> Py.splitlines (Py.strip s)))
  /\ extract_automation_lines repr_value (response_of {[key := JObj entry]})
    = Ok (filter (λ l, l ≠ []) (Py.strip <$> Py.splitlines (Py.strip s)))
  /\ extract_automation_lines repr_value
       (response_of {[lit "a" := success_entry foo_bar_blob]})
    = Ok [lit "foo"; lit "bar"].
Proof.
  intros Hst Hout.
  assert (forall its ls,
    extract_entries repr_value ((key, JObj entry) :: its) ls
    = extract_entries repr_value its (ls ++ spec_output_lines s)) as Hstep.
  { intros its ls. cbn [extract_entries].
    apply ne_str_get_false in Hst. rewrite Hst.
    unfold dict_get_or. rewrite Hout.
    destruct s as [|c s]; cbn [default from_option id truthy Py.nonempty].
    - by rewrite spec_output_lines_empty, app_nil_r.
    - by rewrite extract_output_spec. }
  split; [apply Hstep|]. split.
  - rewrite extract_response_of, sorted_items_singleton, Hstep. reflexivity.
  - vm_compute. reflexivity.
Qed.

(** C2: an entry whose status is not SUCCESS adds exactly one line,
    ["# ERROR: "] followed by its error_message, or by ["Unknown error"]
    when it has none.  The map
    [{"a": {"status":"FAIL","error_message":"bad syntax"}}] extracts to
    [["# ERROR: bad syntax"]]. *)
Theorem C2_error_entry_line (repr_value : json -> str) (key : str)
    (entry : gmap (list N) json)
    (items : list (str * json)) (lines : list str) :
  entry !! lit "status" ≠ Some (JStr (lit "SUCCESS")) ->
  let error_message :=
    match entry !! lit "error_message" with
    | Some (JStr msg) => msg
    | Some other => repr_value other
    | None => lit "Unknown error"
    end in
  extract_entries repr_value ((key, JObj entry) :: items) lines
    = extract_entries repr_value items
        (lines ++ [lit "# ERROR: " ++ error_message])
  /\ extract_automation_lines repr_value (response_of {[key := JObj entry]})
    = Ok [lit "# ERROR: " ++ error_message]
  /\ extract_automation_lines repr_value
       (response_of {[lit "a" := failed_entry (lit "FAIL") (lit "bad syntax")]})
    = Ok [lit "# ERROR: bad syntax"].
Proof.
  intros Hst msg.
  assert (forall its ls,
    extract_entries repr_value ((key, JObj entry) :: its) ls
    = extract_entries repr_value its (ls ++ [lit "# ERROR: " ++ msg])) as Hstep.
  { intros its ls. cbn [extract_entries].
    apply ne_str_get_true in Hst. rewrite Hst.
    unfold dict_get_or, msg.
    by destruct (entry !! lit "error_message") as [[]|]. }
  split; [apply Hstep|]. split.
  - rewrite extract_response_of, sorted_items_singleton, Hstep. reflexivity.
  - vm_compute. reflexivity.
Qed.

(** C3: the entries are visited in ascending order of their keys, compared
    as plain strings: the visited list is a rearrangement of the map's
    items, strictly ascending by key, and the extracted lines are the lines
    of the entries concatenated in that order, each entry's lines in their
    own order.  Keys "2", "1", "10" are visited as "1", "10", "2". *)
Theorem C3_entries_in_key_order (repr_value : json -> str)
    (d result : gmap (list N) json) :
  d !! lit "result" = Some (JObj result) ->
  sorted_items result ≡ₚ map_to_list result
  /\ StronglySorted (λ x y, Py.str_ltb x.1 y.1 = true) (sorted_items result)
  /\ extract_automation_lines repr_value (JObj d)
     = match mapM (spec_entry_lines repr_value) (sorted_items result).*2 with
       | Some ls => Ok (concat ls)
       | None => Raise AttributeError
       end
  /\ (sorted_items result_2_1_10).*1 = [lit "1"; lit "10"; lit "2"]
  /\ extract_automation_lines repr_value (response_of result_2_1_10)
     = Ok [lit "# ERROR: one"; lit "ten"; lit "two"; lit "deux"].
Proof.
  intros Hres. split; [apply sorted_items_perm|].
  split; [apply sorted_items_sorted|]. split; [|split].
  - unfold extract_automation_lines, dict_get_or. rewrite Hres.
    cbn [default from_option id]. by rewrite extract_entries_spec.
  - vm_compute. reflexivity.
  - vm_compute. reflexivity.
Qed.

(** ** The renderer *)

(** C4: an empty list renders to ["# No automation lines generated\n"];
    any other list renders to its lines joined by ["\n"] with one ["\n"]
    behind; [["a"; "b"]] renders to ["a\nb\n"]. *)
Theorem C4_generate_script (lines products cli_commands : list str) :
  generate_script lines products cli_commands
    = match lines with
      | [] => lit "# No automation lines generated" ++ [10]
      | _ :: _ => Py.join [10] lines ++ [10]
      end
  /\ generate_script [lit "a"; lit "b"] products cli_commands
    = lit "a" ++ [10] ++ lit "b" ++ [10].
Proof.
  split; [by destruct lines|reflexivity].
Qed.

(** ** The API client *)

Section ApiClient.

Variable repr_value : json -> str.
Variable w : world.
Variables cli_commands products : list str.
Variable timeout : Z.
Variable response : http_response.
Variable d : gmap (list N) json.

Hypothesis Hpost :
  requests_post w (ddt_request cli_commands products timeout) = Ok response.
Hypothesis Hstatus : raise_for_status response = Ok tt.
Hypothesis Hjson : response_json response = Ok (JObj d).

Lemma call_ddt_api_answered :
  call_ddt_api repr_value w cli_commands products timeout
  = if ne_str (dict_get d (lit "status")) (lit "SUCCESS")
    then Raise (ValueError (lit "API error: " ++ api_error_message repr_value d))
    else Ok (JObj d).
Proof.
  unfold call_ddt_api. rewrite Hpost. cbn [mbind result_bind].
  rewrite Hstatus. cbn [mbind result_bind]. rewrite Hjson.
  cbn [mbind result_bind]. unfold api_error_message, dict_get_or.
  by destruct (d !! lit "message") as [[]|].
Qed.

Lemma call_ddt_api_success :
  d !! lit "status" = Some (JStr (lit "SUCCESS")) ->
  call_ddt_api repr_value w cli_commands products timeout = Ok (JObj d).
Proof.
  intros Hst%ne_str_get_false. by rewrite call_ddt_api_answered, Hst.
Qed.

Lemma call_ddt_api_failure :
  d !! lit "status" ≠ Some (JStr (lit "SUCCESS")) ->
  call_ddt_api repr_value w cli_commands products timeout
  = Raise (ValueError (lit "API error: " ++ api_error_message repr_value d)).
Proof.
  intros Hst%ne_str_get_true. by rewrite call_ddt_api_answered, Hst.
Qed.

End ApiClient.

(** [main] once the commands are gathered. *)
Lemma main_gathered (repr_value json_dumps : json -> str) (w : world)
    (args : Namespace) (cli_commands : list str) :
  gather_cli_commands w args = Ok (Some cli_commands) ->
  cli_commands ≠ [] ->
  main repr_value json_dumps w args
  = match call_ddt_api repr_value w cli_commands (product args) (timeout args) with
    | Raise e => handle_api_error args e
    | Ok api_response =>
        match render_output repr_value json_dumps args api_response cli_commands with
        | Raise e => ([], Uncaught e)
        | Ok out => write_output w args out
        end
    end.
Proof.
  intros Hg Hne. unfold main. rewrite Hg. by destruct cli_commands.
Qed.

(** C5: once the body is parsed, the client raises the error for a failed
    response exactly when the top-level status is not "SUCCESS"; the error
    text is ["API error: "] with the body's message, or with
    ["Unknown error"] when there is none; and [main] then reports it and
    exits with code 1, whatever the result field holds: the extractor is
    never reached. *)
Theorem C5_api_logic_error (repr_value json_dumps : json -> str) (w : world)
    (cli_commands products : list str) (secs : Z)
    (response : http_response) (d : gmap (list N) json) :
  requests_post w (ddt_request cli_commands products secs) = Ok response ->
  raise_for_status response = Ok tt ->
  response_json response = Ok (JObj d) ->
  ((exists msg, call_ddt_api repr_value w cli_commands products secs
                = Raise (ValueError msg))
   <-> d !! lit "status" ≠ Some (JStr (lit "SUCCESS")))
  /\ (d !! lit "status" ≠ Some (JStr (lit "SUCCESS")) ->
      call_ddt_api repr_value w cli_commands products secs
      = Raise (ValueError (lit "API error: " ++
          match d !! lit "message" with
          | Some (JStr msg) => msg
          | Some other => repr_value other
          | None => lit "Unknown error"
          end)))
  /\ (d !! lit "status" ≠ Some (JStr (lit "SUCCESS")) ->
      forall args, gather_cli_commands w args = Ok (Some cli_commands) ->
        cli_commands ≠ [] ->
        product args = products -> timeout args = secs ->
        main repr_value json_dumps w args
        = ([PrintStderr (lit "Error: " ++ lit "API error: " ++
                         api_error_message repr_value d)],
           SysExit 1)).
Proof.
  intros Hpost Hstatus Hjson. split; [|split].
  - split.
    + intros [msg Hcall] Hst.
      by rewrite (call_ddt_api_success _ _ _ _ _ _ _ Hpost Hstatus Hjson Hst)
        in Hcall.
    + intros Hst. eexists.
      by apply (call_ddt_api_failure _ _ _ _ _ _ _ Hpost Hstatus Hjson).
  - intros Hst.
    by rewrite (call_ddt_api_failure _ _ _ _ _ _ _ Hpost Hstatus Hjson Hst).
  - intros Hst args Hg Hne <- <-.
    rewrite (main_gathered _ _ _ _ _ Hg Hne).
    by rewrite (call_ddt_api_failure _ _ _ _ _ _ _ Hpost Hstatus Hjson Hst).
Qed.

(** C10: a response that passes the status check and has no result field,
    or an empty result map, extracts to the empty list without raising,
    and renders to ["# No automation lines generated\n"], which is what
    [main] prints. *)
Theorem C10_no_result_renders_placeholder (repr_value json_dumps : json -> str)
    (w : world) (args : Namespace) (cli_commands : list str)
    (response : http_response) (d : gmap (list N) json) :
  d !! lit "status" = Some (JStr (lit "SUCCESS")) ->
  d !! lit "result" = None \/ d !! lit "result" = Some (JObj ∅) ->
  extract_automation_lines repr_value (JObj d) = Ok []
  /\ generate_script [] (product args) cli_commands
     = lit "# No automation lines generated" ++ [10]
  /\ (gather_cli_commands w args = Ok (Some cli_commands) ->
      cli_commands ≠ [] ->
      requests_post w (ddt_request cli_commands (product args) (timeout args))
        = Ok response ->
      raise_for_status response = Ok tt ->
      response_json response = Ok (JObj d) ->
      output_json args = false ->
      output args = None ->
      main repr_value json_dumps w args
      = ([Print (lit "# No automation lines generated" ++ [10])], Returned)).
Proof.
  intros Hst Hres.
  assert (extract_automation_lines repr_value (JObj d) = Ok []) as Hx.
  { unfold extract_automation_lines, dict_get_or.
    destruct Hres as [-> | ->]; cbn [default from_option id];
      by rewrite sorted_items_empty. }
  split; [done|]. split; [done|].
  intros Hg Hne Hpost Hstatus Hjson Hraw Hout.
  rewrite (main_gathered _ _ _ _ _ Hg Hne).
  rewrite (call_ddt_api_success _ _ _ _ _ _ _ Hpost Hstatus Hjson Hst).
  unfold render_output. rewrite Hraw, Hx. cbn [mbind result_bind].
  unfold write_output. by rewrite Hout.
Qed.

(** ** The input collector *)

Lemma startswith_hash (l : str) :
  Py.startswith l (lit "#") = true <-> exists rest, l = 35 :: rest.
Proof.
  change (lit "#") with [35]. destruct l as [|c l]; cbn.
  - split; [done|]. by intros [? ?].
  - replace (Py.startswith l []) with true by (by destruct l).
    rewrite andb_true_r, N.eqb_eq. split.
    + intros ->. by eexists.
    + by intros [? [= -> _]].
Qed.

Lemma read_commands_spec (split commands : list str) :
  read_commands split commands
  = commands ++ filter is_command (Py.strip <$> split).
Proof.
  revert commands. induction split as [|line split IH]; intros commands.
  - cbn. by rewrite app_nil_r.
  - cbn [read_commands fmap list_fmap]. rewrite filter_cons, !IH.
    destruct (decide (is_command (Py.strip line))) as [[Hne Hc]|Hn].
    + apply nonempty_true in Hne. rewrite Hne, Hc. cbn.
      by rewrite <- app_assoc.
    + destruct (Py.nonempty (Py.strip line)) eqn:Hne; [|done].
      destruct (Py.startswith (Py.strip line) (lit "#")) eqn:Hc; [done|].
      exfalso. apply Hn. split; [by apply nonempty_true|done].
Qed.

(** C6: reading a file that exists yields its lines, each stripped,
    without the lines that are then empty or start with "#", in file
    order; the lines "display this", "", "# comment", "system-view"
    yield [["display this"; "system-view"]].  Stripping is seen at work on
    padded lines: "  display this  ", a line of blanks, a comment behind a
    tab, "system-view" with a tab behind and " ospf 1" yield
    [["display this"; "system-view"; "ospf 1"]], the blanks gone, the
    blank line and the indented comment dropped. *)
Theorem C6_read_cli_from_file (w : world) (filepath text : str) :
  path_exists w filepath = Ok true ->
  path_read_text w filepath = Ok text ->
  read_cli_from_file w filepath
    = Ok (filter (λ l, l ≠ [] /\ Py.startswith l (lit "#") = false)
            (Py.strip <$> Py.splitlines text))
  /\ read_cli_from_file (with_file (lit "commands.txt") commands_txt)
       (lit "commands.txt")
    = Ok [lit "display this"; lit "system-view"]
  /\ read_cli_from_file (with_file (lit "commands.txt") padded_commands_txt)
       (lit "commands.txt")
    = Ok [lit "display this"; lit "system-view"; lit "ospf 1"].
Proof.
  intros Hex Hread. split; [|split; by vm_compute].
  unfold read_cli_from_file. rewrite Hex, Hread. cbn [negb mbind result_bind].
  by rewrite read_commands_spec.
Qed.

Lemma join_cons (sep first : str) (others : list str) :
  Py.join sep (first :: others) = first ++ concat ((λ c, sep ++ c) <$> others).
Proof.
  revert first. induction others as [|c others IH]; intros first.
  - cbn. by rewrite app_nil_r.
  - change (Py.join sep (first :: c :: others))
      with (first ++ sep ++ Py.join sep (c :: others)).
    rewrite IH. cbn [fmap list_fmap concat]. by rewrite <- !app_assoc.
Qed.

(** C7: for a non-empty command list the request body is the object with
    "applicable_products" bound to the products and "block_clis" bound to
    a one-element array holding the commands joined by line feeds; this is
    the body handed to [requests.post]. *)
Theorem C7_request_body (repr_value : json -> str) (w : world)
    (first : str) (others products : list str) (secs : Z) :
  let body :=
    JObj {[ lit "applicable_products" := JArr (JStr <$> products);
            lit "block_clis" := JArr [JStr (spec_joined_commands first others)] ]} in
  req_json (ddt_request (first :: others) products secs) = body
  /\ (forall e request,
        req_json request = body -> req_url request = DDT_API_URL ->
        req_timeout request = secs ->
        req_headers request = [(lit "Content-Type", lit "application/json");
                               (lit "Accept", lit "application/json")] ->
        requests_post w request = Raise e ->
        call_ddt_api repr_value w (first :: others) products secs = Raise e)
  /\ req_json (ddt_request [lit "system-view"; lit "ospf 1"] [lit "USG6000F"] secs)
     = JObj {[ lit "applicable_products" := JArr [JStr (lit "USG6000F")];
               lit "block_clis" :=
                 JArr [JStr (lit "system-view" ++ [10] ++ lit "ospf 1")] ]}.
Proof.
  intros body.
  assert (req_json (ddt_request (first :: others) products secs) = body) as Hb.
  { unfold ddt_request, payload, body, spec_joined_commands, NL, Py.LF.
    cbn [req_json]. by rewrite join_cons. }
  split; [done|]. split; [|reflexivity].
  intros e [u j t h] Hj Hu Ht Hh Hpost. cbn in Hj, Hu, Ht, Hh. subst u t h.
  unfold call_ddt_api.
  replace (ddt_request (first :: others) products secs)
    with {| req_url := DDT_API_URL; req_json := j; req_timeout := secs;
            req_headers := [(lit "Content-Type", lit "application/json");
                            (lit "Accept", lit "application/json")] |}.
  - by rewrite Hpost.
  - unfold ddt_request. f_equal. by rewrite Hj, <- Hb.
Qed.

(** C8, as the code has it: with a file the commands are, in file order, a
    selection of the stripped lines of the file and none of them is empty;
    without a file they are the strings of the command line, unchanged and
    in the given order. *)
Theorem C8_collector_order_and_entries (w : world) (args : Namespace)
    (cli_commands : list str) :
  gather_cli_commands w args = Ok (Some cli_commands) ->
  match cli_file args with
  | Some filepath =>
      if Py.nonempty filepath then
        exists text, path_read_text w filepath = Ok text
          /\ cli_commands `sublist_of` (Py.strip <$> Py.splitlines text)
          /\ Forall (λ c, c ≠ []) cli_commands
      else cli args = Some cli_commands
  | None => cli args = Some cli_commands
  end.
Proof.
  unfold gather_cli_commands, read_cli_from_file.
  destruct (cli_file args) as [filepath|]; [|congruence].
  destruct (Py.nonempty filepath); [|congruence].
  destruct (path_exists w filepath) as [[]|];
    cbn [negb mbind result_bind]; [|done|done].
  destruct (path_read_text w filepath) as [text|e];
    cbn [mbind result_bind]; [|done].
  intros [= <-]. exists text. rewrite read_commands_spec. cbn [app].
  split; [done|]. split; [apply sublist_filter|].
  apply Forall_forall. intros c [[Hne _] _]%list_elem_of_filter. exact Hne.
Qed.

(** C8 as stated fails in direct mode: with [--cli ""] the sequence is
    not empty and the collector hands it on with its empty command. *)
Lemma C8_direct_mode_keeps_empty_string :
  [lit ""] ≠ ([] : list str)
  /\ gather_cli_commands offline (direct_args [lit "USG6000F"] [lit ""])
     = Ok (Some [[]])
  /\ ¬ Forall (λ c : str, c ≠ []) [[]].
Proof.
  split; [done|]. split; [reflexivity|].
  intros H. apply Forall_inv in H. by apply H.
Qed.



(** ** The theorems at work on concrete inputs *)

Lemma C1_success_entry_lines_witness :
  extract_automation_lines no_repr
    (response_of {[lit "a" := JObj (success_fields foo_bar_blob)]})
  = Ok (filter (λ l, l ≠ [])
          (Py.strip <$> Py.splitlines (Py.strip foo_bar_blob))).
Proof.
  refine (proj1 (proj2 (C1_success_entry_lines no_repr (lit "a")
            (success_fields foo_bar_blob) foo_bar_blob [] [] _ _)));
    vm_compute; reflexivity.
Defined.

Lemma C2_error_entry_line_witness :
  extract_automation_lines no_repr
    (response_of {[lit "a" :=
       JObj (failed_fields (lit "FAIL") (lit "bad syntax"))]})
  = Ok [lit "# ERROR: " ++ lit "bad syntax"].
Proof.
  refine (proj1 (proj2 (C2_error_entry_line no_repr (lit "a")
            (failed_fields (lit "FAIL") (lit "bad syntax")) [] [] _))).
  vm_compute. discriminate.
Defined.

Lemma C3_entries_in_key_order_witness :
  response_fields result_2_1_10 !! lit "result" = Some (JObj result_2_1_10)
  /\ StronglySorted (λ x y, Py.str_ltb x.1 y.1 = true)
       (sorted_items result_2_1_10).
Proof.
  assert (response_fields result_2_1_10 !! lit "result"
          = Some (JObj result_2_1_10)) as H by (vm_compute; reflexivity).
  split; [exact H|].
  exact (proj1 (proj2 (C3_entries_in_key_order no_repr
           (response_fields result_2_1_10) result_2_1_10 H))).
Defined.

Lemma C5_api_logic_error_witness :
  call_ddt_api no_repr (answering 200 (JObj rejected_fields))
    [lit "display this"] [lit "USG6000F"] 60
  = Raise (ValueError (lit "API error: " ++ lit "boom")).
Proof.
  refine (proj1 (proj2 (C5_api_logic_error no_repr no_repr
            (answering 200 (JObj rejected_fields))
            [lit "display this"] [lit "USG6000F"] 60
            {| status_code := 200; http_error_msg := [];
               response_json := Ok (JObj rejected_fields) |}
            rejected_fields _ _ _)) _);
    try reflexivity.
  vm_compute. discriminate.
Defined.

Lemma C6_read_cli_from_file_witness :
  read_cli_from_file (with_file (lit "commands.txt") padded_commands_txt)
    (lit "commands.txt")
  = Ok (filter (λ l, l ≠ [] /\ Py.startswith l (lit "#") = false)
          (Py.strip <$> Py.splitlines padded_commands_txt)).
Proof.
  refine (proj1 (C6_read_cli_from_file
            (with_file (lit "commands.txt") padded_commands_txt)
            (lit "commands.txt") padded_commands_txt _ _));
    vm_compute; reflexivity.
Defined.

Lemma C7_request_body_witness :
  call_ddt_api no_repr offline [lit "system-view"; lit "ospf 1"]
    [lit "USG6000F"] 60
  = Raise (RequestException ConnectionError []).
Proof.
  refine (proj1 (proj2 (C7_request_body no_repr offline (lit "system-view")
            [lit "ospf 1"] [lit "USG6000F"] 60)) _
            (ddt_request [lit "system-view"; lit "ospf 1"] [lit "USG6000F"] 60)
            _ _ _ _ _);
    reflexivity.
Defined.

Lemma C8_collector_order_and_entries_witness :
  exists text,
    path_read_text (with_file (lit "commands.txt") commands_txt)
      (lit "commands.txt") = Ok text
    /\ [lit "display this"; lit "system-view"]
         `sublist_of` (Py.strip <$> Py.splitlines text)
    /\ Forall (λ c : str, c ≠ []) [lit "display this"; lit "system-view"].
Proof.
  refine (C8_collector_order_and_entries
            (with_file (lit "commands.txt") commands_txt)
            (file_args [lit "USG6000F"] (lit "commands.txt"))
            [lit "display this"; lit "system-view"] _).
  vm_compute. reflexivity.
Defined.


Lemma C10_no_result_renders_placeholder_witness :
  main no_repr no_repr (answering 200 (JObj bare_success_fields))
    (direct_args [lit "USG6000F"] [lit "display this"])
  = ([Print (lit "# No automation lines generated" ++ [10])], Returned).
Proof.
  refine (proj2 (proj2 (C10_no_result_renders_placeholder no_repr no_repr
            (answering 200 (JObj bare_success_fields))
            (direct_args [lit "USG6000F"] [lit "display this"])
            [lit "display this"]
            {| status_code := 200; http_error_msg := [];
               response_json := Ok (JObj bare_success_fields) |}
            bare_success_fields _ _)) _ _ _ _ _ _ _);
    try reflexivity; try done.
  left. vm_compute. reflexivity.
Defined.

(** * Further properties of the program *)

(** ** Stripping and splitting *)

Lemma lstrip_suffix (s : str) : Py.lstrip s `suffix_of` s.
Proof.
  induction s as [|c s IH]; cbn; [done|].
  destruct (Py.isspace c); [by apply suffix_cons_r|done].
Qed.

Lemma lstrip_head (s : str) :
  match Py.lstrip s with
  | [] => True
  | c :: _ => Py.isspace c = false
  end.
Proof.
  induction s as [|c s IH]; cbn; [done|].
  by destruct (Py.isspace c) eqn:E.
Qed.

Lemma lstrip_fixed (c : char) (s : str) :
  Py.isspace c = false -> Py.lstrip (c :: s) = c :: s.
Proof. intros H. cbn. by rewrite H. Qed.

Lemma lstrip_idemp (s : str) : Py.lstrip (Py.lstrip s) = Py.lstrip s.
Proof.
  pose proof (lstrip_head s) as H. destruct (Py.lstrip s) as [|c t]; [done|].
  by apply lstrip_fixed.
Qed.

Lemma lstrip_snoc (s : str) (c : char) :
  Py.isspace c = false -> exists t, Py.lstrip (s ++ [c]) = t ++ [c].
Proof.
  intros Hc. induction s as [|a s [t IH]]; cbn.
  - rewrite Hc. by exists [].
  - destruct (Py.isspace a); [by exists t|]. by exists (a :: s).
Qed.

Lemma rstrip_idemp (s : str) : Py.rstrip (Py.rstrip s) = Py.rstrip s.
Proof.
  unfold Py.rstrip. by rewrite reverse_involutive, lstrip_idemp.
Qed.

Lemma lstrip_rstrip (s : str) :
  Py.lstrip s = s -> Py.lstrip (Py.rstrip s) = Py.rstrip s.
Proof.
  intros Hs. destruct s as [|c s]; [done|].
  assert (Py.isspace c = false) as Hc.
  { pose proof (lstrip_head (c :: s)) as H. by rewrite Hs in H. }
  unfold Py.rstrip. rewrite reverse_cons.
  destruct (lstrip_snoc (reverse s) c Hc) as [t ->].
  rewrite reverse_app. cbn. by rewrite Hc.
Qed.

(** What [strip] returns is stripped. *)
Lemma strip_stripped (s : str) : stripped (Py.strip s).
Proof.
  unfold stripped, Py.strip.
  rewrite (lstrip_rstrip (Py.lstrip s)) by apply lstrip_idemp.
  apply rstrip_idemp.
Qed.

Lemma lstrip_Forall (P : char -> Prop) (s : str) :
  Forall P s -> Forall P (Py.lstrip s).
Proof.
  intros H. destruct (lstrip_suffix s) as [k Hk].
  rewrite Hk in H. by apply Forall_app in H as [_ H].
Qed.

Lemma strip_Forall (P : char -> Prop) (s : str) :
  Forall P s -> Forall P (Py.strip s).
Proof.
  intros H. unfold Py.strip, Py.rstrip.
  by apply Forall_reverse, lstrip_Forall, Forall_reverse, lstrip_Forall.
Qed.

(** The lines [splitlines] returns hold no line boundary. *)
Lemma splitlines_aux_no_linebreak (n : nat) (s cur : str) :
  (length s <= n)%nat -> no_linebreak cur ->
  Forall no_linebreak (Py.splitlines_aux cur s).
Proof.
  revert s cur. induction n as [|n IH]; intros s cur Hn Hcur.
  - destruct s; [|cbn in Hn; lia]. cbn.
    destruct cur; [done|]. constructor; [|done]. by apply Forall_reverse.
  - destruct s as [|c s]; cbn.
    + destruct cur; [done|]. constructor; [|done]. by apply Forall_reverse.
    + cbn in Hn. destruct (Py.islinebreak c) eqn:Hc.
      * destruct s as [|d s].
        -- constructor; [|done]. by apply Forall_reverse.
        -- cbn in Hn.
           destruct ((c =? Py.CR) && (d =? Py.LF));
             (constructor; [by apply Forall_reverse|]);
             (apply IH; [cbn; lia|constructor]).
      * apply IH; [lia|]. by constructor.
Qed.

Lemma splitlines_no_linebreak (s : str) :
  Forall no_linebreak (Py.splitlines s).
Proof.
  apply (splitlines_aux_no_linebreak (length s)); [lia|constructor].
Qed.

(** A line without line boundary, closed by a line feed, is split off as
    it stands. *)
Lemma splitlines_aux_line (l cur rest : str) :
  no_linebreak l ->
  Py.splitlines_aux cur (l ++ 10 :: rest)
  = (reverse cur ++ l) :: Py.splitlines_aux [] rest.
Proof.
  revert cur. induction l as [|c l IH]; intros cur Hl.
  - rewrite app_nil_r. cbn. by destruct rest.
  - apply Forall_cons in Hl as [Hc Hl]. cbn. rewrite Hc, (IH _ Hl).
    by rewrite reverse_cons, <- app_assoc.
Qed.

Lemma splitlines_aux_last (l cur : str) :
  no_linebreak l ->
  Py.splitlines_aux cur l
  = match reverse cur ++ l with [] => [] | _ => [reverse cur ++ l] end.
Proof.
  revert cur. induction l as [|c l IH]; intros cur Hl.
  - rewrite app_nil_r. cbn. destruct cur as [|a cur]; [done|].
    rewrite reverse_cons. by destruct (reverse cur).
  - apply Forall_cons in Hl as [Hc Hl]. cbn. rewrite Hc, (IH _ Hl).
    by rewrite reverse_cons, <- app_assoc.
Qed.

(** Joining with line feeds and closing with one is undone by
    [splitlines]. *)
Lemma splitlines_join_closed (l : str) (ls : list str) :
  Forall no_linebreak (l :: ls) ->
  Py.splitlines (Py.join NL (l :: ls) ++ NL) = l :: ls.
Proof.
  revert l. induction ls as [|l2 ls IH]; intros l Hall;
    apply Forall_cons in Hall as [Hl Hls]; unfold Py.splitlines.
  - cbn [Py.join]. unfold NL, Py.LF. by rewrite (splitlines_aux_line l [] []).
  - change (Py.join NL (l :: l2 :: ls))
      with (l ++ NL ++ Py.join NL (l2 :: ls)).
    unfold NL at 1, Py.LF. rewrite <- !app_assoc.
    cbn [app]. rewrite (splitlines_aux_line l [] _ Hl). cbn [reverse app].
    f_equal. by apply IH.
Qed.

(** Without the closing line feed the same holds when no part is empty. *)
Lemma splitlines_join (ls : list str) :
  Forall no_linebreak ls -> Forall (λ l, l ≠ []) ls ->
  Py.splitlines (Py.join NL ls) = ls.
Proof.
  induction ls as [|l ls IH]; intros Hlb Hne; [done|].
  apply Forall_cons in Hlb as [Hl Hls]. apply Forall_cons in Hne as [Hn Hns].
  destruct ls as [|l2 ls]; unfold Py.splitlines.
  - cbn [Py.join]. rewrite (splitlines_aux_last l [] Hl). cbn.
    by destruct l.
  - change (Py.join NL (l :: l2 :: ls))
      with (l ++ NL ++ Py.join NL (l2 :: ls)).
    unfold NL at 1, Py.LF. cbn [app].
    rewrite (splitlines_aux_line l [] _ Hl). cbn [reverse app].
    f_equal. by apply IH.
Qed.

(** ** [main]: gathering the commands *)

Lemma filter_commands_nil (split : list str) :
  Forall skipped_line split -> filter is_command (Py.strip <$> split) = [].
Proof.
  induction 1 as [|line split Hline _ IH]; [done|].
  cbn [fmap list_fmap]. rewrite filter_cons, IH.
  destruct (decide (is_command (Py.strip line))) as [[Hne Hc]|]; [|done].
  destruct Hline as [H|H]; congruence.
Qed.

(** X1: a command file that holds only blank lines and comments leaves no
    command: [main] reports "No CLI commands provided." through the parser
    and exits with code 2, and sends no request. *)
Theorem X1_file_without_commands (repr_value json_dumps : json -> str)
    (w : world) (args : Namespace) (filepath text : str) :
  cli_file args = Some filepath -> filepath ≠ [] ->
  path_exists w filepath = Ok true ->
  path_read_text w filepath = Ok text ->
  Forall (λ line, Py.strip line = []
                  \/ Py.startswith (Py.strip line) (lit "#") = true)
         (Py.splitlines text) ->
  main repr_value json_dumps w args
  = ([ParserError (lit "No CLI commands provided.")], SysExit 2).
Proof.
  intros Hf Hne%nonempty_true Hex Hread Hall.
  unfold main, gather_cli_commands, read_cli_from_file.
  rewrite Hf, Hne, Hex, Hread. cbn [negb mbind result_bind].
  by rewrite read_commands_spec, (filter_commands_nil _ Hall).
Qed.

(** X2: an empty [--cli-file] path counts as no path.  The parser takes
    it as the one source it requires, so no [--cli] stands beside it; the
    file system is not consulted, whatever it holds, no command is
    gathered, and the run ends with "No CLI commands provided." and exit
    code 2. *)
Theorem X2_empty_cli_file_is_ignored (repr_value json_dumps : json -> str)
    (w : world) (args : Namespace) :
  cli_file args = Some [] ->
  cli args = None ->
  gather_cli_commands w args = Ok None
  /\ main repr_value json_dumps w args
     = ([ParserError (lit "No CLI commands provided.")], SysExit 2).
Proof.
  intros Hf Hc. unfold main, gather_cli_commands. rewrite Hf, Hc. by cbn.
Qed.

(** ** [main]: failures of the call *)

(** X3: whenever the call fails with an exception of [requests] or a
    [ValueError], [main] writes one message to the error stream and exits
    with code 1: nothing goes to standard output and no file is written. *)
Theorem X3_api_failure_exits_1 (repr_value json_dumps : json -> str)
    (w : world) (args : Namespace) (cli_commands : list str) (e : exc) :
  gather_cli_commands w args = Ok (Some cli_commands) ->
  cli_commands ≠ [] ->
  call_ddt_api repr_value w cli_commands (product args) (timeout args)
    = Raise e ->
  (exists cls msg, e = RequestException cls msg) \/ (exists msg, e = ValueError msg) ->
  exists message,
    main repr_value json_dumps w args = ([PrintStderr message], SysExit 1).
Proof.
  intros Hg Hne Hcall He. rewrite (main_gathered _ _ _ _ _ Hg Hne), Hcall.
  destruct He as [(cls & msg & ->)|(msg & ->)]; [destruct cls|]; by eexists.
Qed.

(** X4: an exception raised by [requests.post] leaves the call unchanged
    and picks the message by its class: a connection error, and a connect
    timeout too, reads "Cannot connect"; any other timeout names the
    seconds of [--timeout]; every other class shows its own text. *)
Theorem X4_transport_error_messages (repr_value json_dumps : json -> str)
    (w : world) (args : Namespace) (cli_commands : list str)
    (cls : requests_class) (msg : str) :
  gather_cli_commands w args = Ok (Some cli_commands) ->
  cli_commands ≠ [] ->
  requests_post w (ddt_request cli_commands (product args) (timeout args))
    = Raise (RequestException cls msg) ->
  main repr_value json_dumps w args
  = ([PrintStderr
        match cls with
        | ConnectionError | ConnectTimeout =>
            lit "Error: Cannot connect to DDT API. Are you on the internal network?"
        | Timeout =>
            lit "Error: API request timed out after " ++
            str_of_int (timeout args) ++ lit "s."
        | _ => lit "Error: " ++ msg
        end],
     SysExit 1).
Proof.
  intros Hg Hne Hpost. rewrite (main_gathered _ _ _ _ _ Hg Hne).
  unfold call_ddt_api. rewrite Hpost. cbn [mbind result_bind].
  by destruct cls.
Qed.

(** X5: a response with a status code from 400 to 599 raises the HTTP
    error whatever its body holds: the body is not looked at. *)
Theorem X5_http_error_status (repr_value : json -> str) (w : world)
    (cli_commands products : list str) (secs : Z) (response : http_response) :
  requests_post w (ddt_request cli_commands products secs) = Ok response ->
  (400 <= status_code response < 600)%Z ->
  call_ddt_api repr_value w cli_commands products secs
  = Raise (RequestException HTTPError (http_error_msg response)).
Proof.
  intros Hpost [Hlo Hhi]. unfold call_ddt_api, raise_for_status.
  rewrite Hpost. cbn [mbind result_bind].
  apply Z.leb_le in Hlo. apply Z.ltb_lt in Hhi. by rewrite Hlo, Hhi.
Qed.

(** X6: every other status code, a redirect or an informational one
    included, lets the body decide: a body with status "SUCCESS" is
    returned as it is. *)
Theorem X6_other_status_passes (repr_value : json -> str) (w : world)
    (cli_commands products : list str) (secs : Z) (response : http_response)
    (d : gmap (list N) json) :
  requests_post w (ddt_request cli_commands products secs) = Ok response ->
  (status_code response < 400 \/ 600 <= status_code response)%Z ->
  response_json response = Ok (JObj d) ->
  d !! lit "status" = Some (JStr (lit "SUCCESS")) ->
  call_ddt_api repr_value w cli_commands products secs = Ok (JObj d).
Proof.
  intros Hpost Hcode Hjson Hst.
  apply (call_ddt_api_success _ _ _ _ _ response); try done.
  unfold raise_for_status.
  destruct Hcode as [H|H].
  - apply Z.leb_gt in H. by rewrite H.
  - apply Z.ltb_ge in H. rewrite H. by rewrite andb_false_r.
Qed.

(** X7: a body that is valid JSON but no object makes the call raise
    [AttributeError], which [main] does not catch: the run ends with that
    exception and without any message of its own. *)
Theorem X7_body_not_an_object (repr_value json_dumps : json -> str)
    (w : world) (args : Namespace) (cli_commands : list str)
    (response : http_response) (data : json) :
  gather_cli_commands w args = Ok (Some cli_commands) ->
  cli_commands ≠ [] ->
  requests_post w (ddt_request cli_commands (product args) (timeout args))
    = Ok response ->
  raise_for_status response = Ok tt ->
  response_json response = Ok data ->
  (forall d, data ≠ JObj d) ->
  call_ddt_api repr_value w cli_commands (product args) (timeout args)
    = Raise AttributeError
  /\ main repr_value json_dumps w args = ([], Uncaught AttributeError).
Proof.
  intros Hg Hne Hpost Hstatus Hjson Hdata.
  assert (call_ddt_api repr_value w cli_commands (product args) (timeout args)
          = Raise AttributeError) as Hcall.
  { unfold call_ddt_api. rewrite Hpost. cbn [mbind result_bind].
    rewrite Hstatus. cbn [mbind result_bind]. rewrite Hjson.
    cbn [mbind result_bind]. destruct data; try done. by destruct (Hdata m). }
  split; [done|]. by rewrite (main_gathered _ _ _ _ _ Hg Hne), Hcall.
Qed.

(** ** The lines the extractor returns *)

Lemma extract_lines_spec (repr_value : json -> str)
    (d result : gmap (list N) json) :
  d !! lit "result" = Some (JObj result) ->
  extract_automation_lines repr_value (JObj d)
  = match mapM (spec_entry_lines repr_value) (sorted_items result).*2 with
    | Some ls => Ok (concat ls)
    | None => Raise AttributeError
    end.
Proof.
  intros Hres. unfold extract_automation_lines, dict_get_or. rewrite Hres.
  cbn [default from_option id]. by rewrite extract_entries_spec.
Qed.

Lemma sorted_items_elem (result : gmap (list N) json) (key : str) (entry : json) :
  result !! key = Some entry -> entry ∈ (sorted_items result).*2.
Proof.
  intros H. apply list_elem_of_fmap. exists (key, entry). split; [done|].
  rewrite (sorted_items_perm result). by apply elem_of_map_to_list.
Qed.

Lemma extract_lines_raise (repr_value : json -> str)
    (d result : gmap (list N) json) (key : str) (entry : json) :
  d !! lit "result" = Some (JObj result) ->
  result !! key = Some entry ->
  spec_entry_lines repr_value entry = None ->
  extract_automation_lines repr_value (JObj d) = Raise AttributeError.
Proof.
  intros Hres Hkey Hnone. rewrite (extract_lines_spec _ _ _ Hres).
  assert (mapM (spec_entry_lines repr_value) (sorted_items result).*2 = None)
    as ->; [|done].
  apply mapM_None, Exists_exists. exists entry.
  split; [by eapply sorted_items_elem|done].
Qed.

Lemma spec_output_lines_shape (s : str) :
  Forall output_line (spec_output_lines s).
Proof.
  apply Forall_forall. intros l [Hne Hl]%list_elem_of_filter.
  apply list_elem_of_fmap in Hl as (x & -> & Hx).
  split; [done|]. split; [apply strip_stripped|].
  apply strip_Forall.
  pose proof (splitlines_no_linebreak (Py.strip s)) as Hall.
  rewrite Forall_forall in Hall. by apply Hall.
Qed.

Lemma spec_entry_lines_shape (repr_value : json -> str) (entry : json)
    (ls : list str) :
  spec_entry_lines repr_value entry = Some ls -> Forall automation_line ls.
Proof.
  destruct entry as [| | | | | |e]; try done. cbn [spec_entry_lines].
  destruct (ne_str _ _).
  - intros [= <-]. constructor; [|done]. left. by eexists.
  - destruct (e !! lit "output_lines") as [o|]; [|by intros [= <-]].
    assert (forall t, Forall automation_line (spec_output_lines t)) as Hout.
    { intros t. eapply Forall_impl; [apply spec_output_lines_shape|].
      intros l Hl. by right. }
    destruct o; try (destruct (truthy _); [done|by intros [= <-]]).
    intros [= <-]. apply Hout.
Qed.

(** X8: one entry of the result map that is not an object makes the whole
    extraction raise [AttributeError]: the lines of the other entries are
    not returned, wherever the entry stands in the key order. *)
Theorem X8_entry_not_an_object (repr_value : json -> str)
    (d result : gmap (list N) json) (key : str) (entry : json) :
  d !! lit "result" = Some (JObj result) ->
  result !! key = Some entry ->
  (forall e, entry ≠ JObj e) ->
  extract_automation_lines repr_value (JObj d) = Raise AttributeError.
Proof.
  intros Hres Hkey Hentry. apply (extract_lines_raise _ _ _ _ _ Hres Hkey).
  destruct entry; try done. by destruct (Hentry m).
Qed.

(** X9: an entry with status "SUCCESS" whose [output_lines] is not a string
    but counts as true (a non-empty list of lines, a non-zero number, ...)
    makes the whole extraction raise [AttributeError]. *)
Theorem X9_output_not_a_string (repr_value : json -> str)
    (d result entry : gmap (list N) json) (key : str) (output_lines : json) :
  d !! lit "result" = Some (JObj result) ->
  result !! key = Some (JObj entry) ->
  entry !! lit "status" = Some (JStr (lit "SUCCESS")) ->
  entry !! lit "output_lines" = Some output_lines ->
  truthy output_lines = true ->
  (forall s, output_lines ≠ JStr s) ->
  extract_automation_lines repr_value (JObj d) = Raise AttributeError.
Proof.
  intros Hres Hkey Hst Hout Htrue Hstr.
  apply (extract_lines_raise _ _ _ _ _ Hres Hkey).
  cbn [spec_entry_lines]. apply ne_str_get_false in Hst. rewrite Hst, Hout.
  destruct output_lines; try by rewrite Htrue. by destruct (Hstr s).
Qed.

(** X10: when the extraction raises, a run in script mode ends with that
    exception, with nothing printed and nothing written, although the call
    succeeded; with [--json] the same response is put out, since the
    extraction is not run. *)
Theorem X10_extraction_failure_in_main (repr_value json_dumps : json -> str)
    (w : world) (args : Namespace) (cli_commands : list str)
    (api_response : json) (e : exc) :
  gather_cli_commands w args = Ok (Some cli_commands) ->
  cli_commands ≠ [] ->
  call_ddt_api repr_value w cli_commands (product args) (timeout args)
    = Ok api_response ->
  extract_automation_lines repr_value api_response = Raise e ->
  main repr_value json_dumps w args
  = if output_json args
    then write_output w args (json_dumps api_response)
    else ([], Uncaught e).
Proof.
  intros Hg Hne Hcall Hex. rewrite (main_gathered _ _ _ _ _ Hg Hne), Hcall.
  unfold render_output. destruct (output_json args); [done|].
  by rewrite Hex.
Qed.

(** X11: every line the extractor returns is an error marker, starting
    with ["# ERROR: "], or a line of an output text: not empty, with no
    whitespace at either end and no line boundary inside. *)
Theorem X11_extracted_lines_shape (repr_value : json -> str)
    (api_response : json) (lines : list str) :
  extract_automation_lines repr_value api_response = Ok lines ->
  Forall (λ l, (exists msg, l = lit "# ERROR: " ++ msg)
               \/ (l ≠ [] /\ Py.strip l = l
                   /\ Forall (λ c, Py.islinebreak c = false) l))
         lines.
Proof.
  destruct api_response as [| | | | | |d]; try done.
  destruct (d !! lit "result") as [r|] eqn:Hres.
  - destruct r as [| | | | | |result];
      try (unfold extract_automation_lines, dict_get_or; by rewrite Hres).
    rewrite (extract_lines_spec _ _ _ Hres).
    destruct (mapM _ _) as [ls|] eqn:Hm; [|done]. intros [= <-].
    apply mapM_Some in Hm. apply Forall_concat.
    induction Hm as [|x y xs ys Hxy _ IH]; constructor; [|done].
    apply (spec_entry_lines_shape _ _ _ Hxy).
  - unfold extract_automation_lines, dict_get_or. rewrite Hres.
    cbn [default from_option id]. rewrite sorted_items_empty.
    by intros [= <-].
Qed.

(** ** Lines that are already clean *)

Lemma rstrip_fixed (s : str) (c : char) :
  Py.isspace c = false -> Py.rstrip (s ++ [c]) = s ++ [c].
Proof.
  intros Hc. unfold Py.rstrip. rewrite reverse_app. cbn [reverse app].
  change (reverse [c]) with [c]. cbn [app].
  rewrite (lstrip_fixed _ _ Hc), reverse_cons. by rewrite reverse_involutive.
Qed.

Lemma stripped_lstrip (s : str) : stripped s -> Py.lstrip s = s.
Proof.
  unfold stripped. intros Hs. rewrite <- Hs. unfold Py.strip.
  apply lstrip_rstrip, lstrip_idemp.
Qed.

Lemma stripped_head (l : str) :
  l ≠ [] -> stripped l -> exists c t, l = c :: t /\ Py.isspace c = false.
Proof.
  intros Hne Hs. pose proof (lstrip_head l) as H.
  rewrite (stripped_lstrip _ Hs) in H. destruct l as [|c t]; [done|].
  by exists c, t.
Qed.

Lemma stripped_last (l : str) :
  l ≠ [] -> stripped l -> exists t c, l = t ++ [c] /\ Py.isspace c = false.
Proof.
  intros Hne Hs.
  assert (Py.rstrip l = l) as Hr.
  { unfold stripped in Hs. rewrite <- Hs at 1. unfold Py.strip.
    rewrite rstrip_idemp. exact Hs. }
  unfold Py.rstrip in Hr. pose proof (lstrip_head (reverse l)) as H.
  assert (Py.lstrip (reverse l) = reverse l) as Hl.
  { rewrite <- Hr at 2. by rewrite reverse_involutive. }
  rewrite Hl in H. destruct (reverse l) as [|c t] eqn:E.
  - apply (f_equal reverse) in E. rewrite reverse_involutive in E. done.
  - exists (reverse t), c. split; [|done].
    apply (f_equal reverse) in E. rewrite reverse_involutive in E.
    by rewrite E, reverse_cons.
Qed.

Lemma join_last (sep : str) (ls : list str) (l : str) :
  exists pre, Py.join sep (ls ++ [l]) = pre ++ l.
Proof.
  induction ls as [|a ls [pre IH]].
  - by exists [].
  - exists (a ++ sep ++ pre).
    assert (exists b rest, ls ++ [l] = b :: rest) as (b & rest & E).
    { destruct ls; cbn; by eauto. }
    rewrite E in IH. cbn [app]. rewrite E.
    change (Py.join sep (a :: b :: rest))
      with (a ++ sep ++ Py.join sep (b :: rest)).
    by rewrite IH, <- !app_assoc.
Qed.

(** Clean lines joined by line feeds make a text [strip] leaves alone. *)
Lemma join_stripped (ls : list str) :
  Forall (λ l, l ≠ [] /\ stripped l) ls -> stripped (Py.join NL ls).
Proof.
  intros Hall. destruct ls as [|l ls]; [done|].
  assert (Py.lstrip (Py.join NL (l :: ls)) = Py.join NL (l :: ls)) as Hl.
  { apply Forall_cons in Hall as [[Hne Hs] _].
    destruct (stripped_head l Hne Hs) as (c & t & -> & Hc).
    rewrite join_cons. by apply lstrip_fixed. }
  unfold stripped, Py.strip. rewrite Hl.
  destruct (exists_last (l := l :: ls)) as (ls' & l' & E); [done|].
  rewrite E in Hall |- *. apply Forall_app in Hall as [_ Hall].
  apply Forall_cons in Hall as [[Hne Hs] _].
  destruct (stripped_last l' Hne Hs) as (t & c & -> & Hc).
  destruct (join_last NL ls' (t ++ [c])) as [pre ->].
  rewrite app_assoc. by apply rstrip_fixed.
Qed.

Lemma filter_all {A} (P : A -> Prop) `{!forall x, Decision (P x)} (l : list A) :
  Forall P l -> filter P l = l.
Proof.
  induction 1 as [|x l Hx _ IH]; [done|].
  rewrite filter_cons, IH. by destruct (decide (P x)).
Qed.

Lemma fmap_strip_stripped (ls : list str) :
  Forall stripped ls -> Py.strip <$> ls = ls.
Proof.
  induction 1 as [|l ls Hl _ IH]; [done|]. cbn. by rewrite Hl, IH.
Qed.

(** The lines of an output text made of clean lines are these lines. *)
Lemma spec_output_lines_join (lines : list str) :
  Forall output_line lines -> spec_output_lines (Py.join NL lines) = lines.
Proof.
  intros Hall. unfold spec_output_lines.
  rewrite (join_stripped lines).
  2:{ eapply Forall_impl; [exact Hall|]. by intros l (? & ? & ?). }
  rewrite splitlines_join.
  2:{ eapply Forall_impl; [exact Hall|]. by intros l (? & ? & ?). }
  2:{ eapply Forall_impl; [exact Hall|]. by intros l (? & ? & ?). }
  rewrite fmap_strip_stripped.
  2:{ eapply Forall_impl; [exact Hall|]. by intros l (? & ? & ?). }
  apply filter_all. eapply Forall_impl; [exact Hall|]. by intros l (? & ? & ?).
Qed.

Lemma success_entry_lines (repr_value : json -> str) (s : str) :
  spec_entry_lines repr_value (success_entry s) = Some (spec_output_lines s).
Proof. reflexivity. Qed.

(** X12: the script of a non-empty list of lines that hold no line
    boundary splits back into exactly these lines: the renderer adds and
    loses nothing. *)
Theorem X12_script_splits_back (automation_lines products cli_commands : list str) :
  automation_lines ≠ [] ->
  Forall (λ l, Forall (λ c, Py.islinebreak c = false) l) automation_lines ->
  Py.splitlines (generate_script automation_lines products cli_commands)
  = automation_lines.
Proof.
  intros Hne Hall. unfold generate_script.
  destruct automation_lines as [|l ls]; [done|]. cbn [Py.nonempty negb].
  by apply splitlines_join_closed.
Qed.

(** X13: what the extractor returned is what it returns again when the
    service sends these lines back as one output text: on output lines
    the extraction is the identity. *)
Theorem X13_extraction_round_trip (repr_value : json -> str) (key : str)
    (lines : list str) :
  Forall (λ l, l ≠ [] /\ Py.strip l = l
               /\ Forall (λ c, Py.islinebreak c = false) l) lines ->
  extract_automation_lines repr_value
    (response_of {[key := success_entry (Py.join NL lines)]})
  = Ok lines.
Proof.
  intros Hall. rewrite extract_response_of, sorted_items_singleton.
  rewrite extract_entries_spec. cbn [fmap list_fmap snd mapM].
  rewrite success_entry_lines. cbn. rewrite app_nil_r.
  by rewrite spec_output_lines_join.
Qed.

(** ** The commands of a file *)

Lemma read_cli_from_file_Ok (w : world) (filepath : str) (commands : list str) :
  read_cli_from_file w filepath = Ok commands ->
  exists text, path_exists w filepath = Ok true
    /\ path_read_text w filepath = Ok text
    /\ commands = filter is_command (Py.strip <$> Py.splitlines text).
Proof.
  unfold read_cli_from_file.
  destruct (path_exists w filepath) as [[]|];
    cbn [negb mbind result_bind]; [|done|done].
  destruct (path_read_text w filepath) as [text|e];
    cbn [mbind result_bind]; [|done].
  intros [= <-]. exists text. by rewrite read_commands_spec.
Qed.

Lemma read_cli_from_file_shape (w : world) (filepath : str)
    (commands : list str) :
  read_cli_from_file w filepath = Ok commands -> Forall file_command commands.
Proof.
  intros (text & _ & _ & ->)%read_cli_from_file_Ok.
  apply Forall_forall. intros c [[Hne Hc] Hl]%list_elem_of_filter.
  apply list_elem_of_fmap in Hl as (x & -> & Hx).
  split; [done|]. split; [apply strip_stripped|]. split; [|done].
  apply strip_Forall.
  pose proof (splitlines_no_linebreak text) as Hall.
  rewrite Forall_forall in Hall. by apply Hall.
Qed.

(** X14: every command read from a file is not empty, has no whitespace at
    either end, holds no line boundary and does not start with [#]. *)
Theorem X14_file_commands_shape (w : world) (filepath : str)
    (commands : list str) :
  read_cli_from_file w filepath = Ok commands ->
  Forall (λ c, c ≠ [] /\ Py.strip c = c
               /\ Forall (λ x, Py.islinebreak x = false) c
               /\ Py.startswith c (lit "#") = false)
         commands.
Proof. apply read_cli_from_file_shape. Qed.

(** X15: the commands of a file travel as one string in ["block_clis"],
    and that string splits back into exactly the commands read: the
    boundaries between commands survive the joining with line feeds. *)
Theorem X15_file_commands_block (w : world) (filepath : str)
    (commands products : list str) (secs : Z) :
  read_cli_from_file w filepath = Ok commands ->
  exists body block,
    req_json (ddt_request commands products secs) = JObj body
    /\ body !! lit "block_clis" = Some (JArr [JStr block])
    /\ Py.splitlines block = commands.
Proof.
  intros Hall%read_cli_from_file_shape.
  eexists _, (Py.join NL commands). split; [reflexivity|]. split.
  - rewrite lookup_insert_ne by done. by rewrite lookup_insert_eq.
  - apply splitlines_join.
    + eapply Forall_impl; [exact Hall|]. by intros c (? & ? & ? & ?).
    + eapply Forall_impl; [exact Hall|]. by intros c (? & ? & ? & ?).
Qed.

(** X16: a file that holds the commands read from another file, one per
    line, reads back as the same commands: reading is idempotent. *)
Theorem X16_reading_is_idempotent (w w' : world) (filepath filepath' : str)
    (commands : list str) :
  read_cli_from_file w filepath = Ok commands ->
  path_exists w' filepath' = Ok true ->
  path_read_text w' filepath' = Ok (Py.join NL commands) ->
  read_cli_from_file w' filepath' = Ok commands.
Proof.
  intros Hall%read_cli_from_file_shape Hex Hread.
  unfold read_cli_from_file. rewrite Hex, Hread. cbn [negb mbind result_bind].
  rewrite read_commands_spec. cbn [app]. f_equal.
  rewrite splitlines_join.
  2:{ eapply Forall_impl; [exact Hall|]. by intros c (? & ? & ? & ?). }
  2:{ eapply Forall_impl; [exact Hall|]. by intros c (? & ? & ? & ?). }
  rewrite fmap_strip_stripped.
  2:{ eapply Forall_impl; [exact Hall|]. by intros c (? & ? & ? & ?). }
  apply filter_all. eapply Forall_impl; [exact Hall|].
  by intros c (? & ? & ? & ?).
Qed.

(** ** Options [main] does not act on *)

(** X17: [--api-url] changes nothing: a run with any URL is the run with
    the default one, and the request still goes to [DDT_API_URL]. *)
Theorem X17_api_url_is_ignored (repr_value json_dumps : json -> str)
    (w : world) (args : Namespace) (url : str) (cli_commands : list str) :
  main repr_value json_dumps w (with_api_url url args)
    = main repr_value json_dumps w args
  /\ req_url (ddt_request cli_commands (product (with_api_url url args))
                (timeout (with_api_url url args)))
     = DDT_API_URL.
Proof. split; reflexivity. Qed.

(** X18: an empty [--output] path counts as no path: no file is written
    and the run is the one that prints to standard output. *)
Theorem X18_empty_output_is_ignored (repr_value json_dumps : json -> str)
    (w : world) (args : Namespace) :
  output args = Some [] ->
  main repr_value json_dumps w args
  = main repr_value json_dumps w (without_output args).
Proof.
  intros Ho. unfold main, write_output. rewrite Ho. reflexivity.
Qed.

(** ** Whole result maps *)

Lemma mapM_failed (repr_value : json -> str) (entries : list json) :
  Forall (λ entry, exists e, entry = JObj e
            /\ e !! lit "status" ≠ Some (JStr (lit "SUCCESS"))) entries ->
  exists ls, mapM (spec_entry_lines repr_value) entries = Some ls
    /\ length (concat ls) = length entries
    /\ Forall (λ l, exists msg, l = lit "# ERROR: " ++ msg) (concat ls).
Proof.
  induction 1 as [|entry entries (e & -> & Hst) _ (ls & IH & Hlen & Hall)].
  - by exists [].
  - apply ne_str_get_true in Hst.
    eexists (_ :: ls). cbn [mapM spec_entry_lines]. rewrite Hst, IH.
    split; [reflexivity|]. cbn. split; [by rewrite Hlen|].
    constructor; [by eexists|done].
Qed.

Lemma mapM_silent (repr_value : json -> str) (entries : list json) :
  Forall (λ entry, exists e, entry = JObj e
            /\ e !! lit "status" = Some (JStr (lit "SUCCESS"))
            /\ (e !! lit "output_lines" = None
                \/ exists s, e !! lit "output_lines" = Some (JStr s)
                     /\ Forall (λ c, Py.isspace c = true) s)) entries ->
  exists ls, mapM (spec_entry_lines repr_value) entries = Some ls
    /\ concat ls = [].
Proof.
  induction 1 as [|entry entries (e & -> & Hst & Hout) _ (ls & IH & Hnil)].
  - by exists [].
  - apply ne_str_get_false in Hst.
    exists ([] :: ls). cbn [mapM spec_entry_lines]. rewrite Hst, IH.
    split; [|done]. destruct Hout as [->|(s & -> & Hs)]; [done|].
    assert (Py.lstrip s = []) as Hl.
    { induction Hs as [|c s Hc _ IHs]; [done|]. cbn. by rewrite Hc. }
    unfold spec_output_lines, Py.strip. by rewrite Hl.
Qed.

Lemma Forall_sorted_entries (P : json -> Prop) (result : gmap (list N) json) :
  (forall key entry, result !! key = Some entry -> P entry) ->
  Forall P (sorted_items result).*2.
Proof.
  intros H. apply Forall_forall. intros entry Hin.
  apply list_elem_of_fmap in Hin as ([key entry'] & -> & Hin).
  rewrite (sorted_items_perm result) in Hin.
  apply elem_of_map_to_list in Hin. by eapply H.
Qed.

(** X19: when every entry of the result map has failed, the extraction
    still succeeds and returns one marker line per entry, as many lines as
    the map has keys. *)
Theorem X19_all_entries_failed (repr_value : json -> str)
    (d result : gmap (list N) json) :
  d !! lit "result" = Some (JObj result) ->
  (forall key entry, result !! key = Some entry ->
     exists e, entry = JObj e
       /\ e !! lit "status" ≠ Some (JStr (lit "SUCCESS"))) ->
  exists lines,
    extract_automation_lines repr_value (JObj d) = Ok lines
    /\ length lines = size result
    /\ Forall (λ l, exists msg, l = lit "# ERROR: " ++ msg) lines.
Proof.
  intros Hres Hall. rewrite (extract_lines_spec _ _ _ Hres).
  destruct (mapM_failed repr_value (sorted_items result).*2)
    as (ls & -> & Hlen & Hls); [by apply Forall_sorted_entries|].
  exists (concat ls). split; [done|]. split; [|done].
  by rewrite Hlen, length_fmap, (sorted_items_perm result), length_map_to_list.
Qed.

(** X20: when every entry is a success without output text, or with one
    made of whitespace only, no line is extracted and the script is the
    placeholder line. *)
Theorem X20_nothing_but_whitespace (repr_value json_dumps : json -> str)
    (args : Namespace) (d result : gmap (list N) json)
    (cli_commands : list str) :
  output_json args = false ->
  d !! lit "result" = Some (JObj result) ->
  (forall key entry, result !! key = Some entry ->
     exists e, entry = JObj e
       /\ e !! lit "status" = Some (JStr (lit "SUCCESS"))
       /\ (e !! lit "output_lines" = None
           \/ exists s, e !! lit "output_lines" = Some (JStr s)
                /\ Forall (λ c, Py.isspace c = true) s)) ->
  extract_automation_lines repr_value (JObj d) = Ok []
  /\ render_output repr_value json_dumps args (JObj d) cli_commands
     = Ok (lit "# No automation lines generated" ++ NL).
Proof.
  intros Hjson Hres Hall. unfold render_output. rewrite Hjson.
  rewrite (extract_lines_spec _ _ _ Hres).
  destruct (mapM_silent repr_value (sorted_items result).*2)
    as (ls & -> & ->); [by apply Forall_sorted_entries|].
  by split.
Qed.

(** ** The further properties at work on concrete inputs *)

Lemma X1_file_without_commands_witness :
  main no_repr no_repr (with_file (lit "commands.txt") comments_txt)
    (file_args [lit "USG6000F"] (lit "commands.txt"))
  = ([ParserError (lit "No CLI commands provided.")], SysExit 2).
Proof.
  refine (X1_file_without_commands no_repr no_repr
            (with_file (lit "commands.txt") comments_txt)
            (file_args [lit "USG6000F"] (lit "commands.txt"))
            (lit "commands.txt") comments_txt _ _ _ _ _).
  - reflexivity.
  - done.
  - reflexivity.
  - reflexivity.
  - change (Py.splitlines comments_txt)
      with [lit "# only a comment"; lit "   "].
    apply Forall_cons. split; [right; reflexivity|].
    apply Forall_cons. split; [left; reflexivity|]. apply Forall_nil_2.
Defined.

Lemma X2_empty_cli_file_is_ignored_witness :
  main no_repr no_repr (with_file [] commands_txt)
    (file_args [lit "USG6000F"] [])
  = ([ParserError (lit "No CLI commands provided.")], SysExit 2).
Proof.
  refine (proj2 (X2_empty_cli_file_is_ignored no_repr no_repr
            (with_file [] commands_txt) (file_args [lit "USG6000F"] []) _ _));
    reflexivity.
Defined.

Lemma X3_api_failure_exits_1_witness :
  exists message,
    main no_repr no_repr (responding unavailable)
      (direct_args [lit "USG6000F"] [lit "display this"])
    = ([PrintStderr message], SysExit 1).
Proof.
  refine (X3_api_failure_exits_1 no_repr no_repr (responding unavailable)
            (direct_args [lit "USG6000F"] [lit "display this"])
            [lit "display this"]
            (RequestException HTTPError (lit "503 Server Error")) _ _ _ _).
  - reflexivity.
  - done.
  - reflexivity.
  - left. by eexists _, _.
Defined.

Lemma X4_transport_error_messages_witness :
  main no_repr no_repr (failing (RequestException ConnectTimeout []))
    (direct_args [lit "USG6000F"] [lit "display this"])
  = ([PrintStderr
        (lit "Error: Cannot connect to DDT API. Are you on the internal network?")],
     SysExit 1).
Proof.
  refine (X4_transport_error_messages no_repr no_repr
            (failing (RequestException ConnectTimeout []))
            (direct_args [lit "USG6000F"] [lit "display this"])
            [lit "display this"] ConnectTimeout [] _ _ _).
  - reflexivity.
  - done.
  - reflexivity.
Defined.

Lemma X5_http_error_status_witness :
  call_ddt_api no_repr (responding unavailable) [lit "display this"]
    [lit "USG6000F"] 60
  = Raise (RequestException HTTPError (lit "503 Server Error")).
Proof.
  refine (X5_http_error_status no_repr (responding unavailable)
            [lit "display this"] [lit "USG6000F"] 60 unavailable _ _).
  - reflexivity.
  - cbn. lia.
Defined.

Lemma X6_other_status_passes_witness :
  call_ddt_api no_repr (answering 302 (JObj bare_success_fields))
    [lit "display this"] [lit "USG6000F"] 60
  = Ok (JObj bare_success_fields).
Proof.
  refine (X6_other_status_passes no_repr
            (answering 302 (JObj bare_success_fields))
            [lit "display this"] [lit "USG6000F"] 60
            {| status_code := 302; http_error_msg := [];
               response_json := Ok (JObj bare_success_fields) |}
            bare_success_fields _ _ _ _).
  - reflexivity.
  - left. cbn. lia.
  - reflexivity.
  - vm_compute. reflexivity.
Defined.

Lemma X7_body_not_an_object_witness :
  call_ddt_api no_repr (answering 200 (JArr [])) [lit "display this"]
    [lit "USG6000F"] DEFAULT_TIMEOUT
  = Raise AttributeError
  /\ main no_repr no_repr (answering 200 (JArr []))
       (direct_args [lit "USG6000F"] [lit "display this"])
     = ([], Uncaught AttributeError).
Proof.
  refine (X7_body_not_an_object no_repr no_repr (answering 200 (JArr []))
            (direct_args [lit "USG6000F"] [lit "display this"])
            [lit "display this"]
            {| status_code := 200; http_error_msg := [];
               response_json := Ok (JArr []) |}
            (JArr []) _ _ _ _ _ _);
    try reflexivity; done.
Defined.

Lemma X8_entry_not_an_object_witness :
  extract_automation_lines no_repr (response_of result_with_string)
  = Raise AttributeError.
Proof.
  refine (X8_entry_not_an_object no_repr (response_fields result_with_string)
            result_with_string (lit "b") (JStr (lit "oops")) _ _ _).
  - vm_compute. reflexivity.
  - vm_compute. reflexivity.
  - done.
Defined.

Lemma X9_output_not_a_string_witness :
  extract_automation_lines no_repr
    (response_of {[lit "a" := JObj listed_output_fields]})
  = Raise AttributeError.
Proof.
  refine (X9_output_not_a_string no_repr
            (response_fields {[lit "a" := JObj listed_output_fields]})
            {[lit "a" := JObj listed_output_fields]} listed_output_fields
            (lit "a") (JArr [JStr (lit "line")]) _ _ _ _ _ _);
    try (vm_compute; reflexivity).
  done.
Defined.

Lemma X10_extraction_failure_in_main_witness :
  main no_repr no_repr (answering 200 (response_of result_with_string))
    (direct_args [lit "USG6000F"] [lit "display this"])
  = ([], Uncaught AttributeError).
Proof.
  refine (X10_extraction_failure_in_main no_repr no_repr
            (answering 200 (response_of result_with_string))
            (direct_args [lit "USG6000F"] [lit "display this"])
            [lit "display this"] (response_of result_with_string)
            AttributeError _ _ _ _);
    try (vm_compute; reflexivity).
  done.
Defined.

Lemma X11_extracted_lines_shape_witness :
  Forall (λ l, (exists msg, l = lit "# ERROR: " ++ msg)
               \/ (l ≠ [] /\ Py.strip l = l
                   /\ Forall (λ c, Py.islinebreak c = false) l))
         [lit "# ERROR: one"; lit "ten"; lit "two"; lit "deux"].
Proof.
  refine (X11_extracted_lines_shape no_repr (response_of result_2_1_10)
            [lit "# ERROR: one"; lit "ten"; lit "two"; lit "deux"] _).
  vm_compute. reflexivity.
Defined.

Lemma X12_script_splits_back_witness :
  Py.splitlines (generate_script [lit "foo"; []; lit "bar"] [lit "USG6000F"]
                   [lit "display this"])
  = [lit "foo"; []; lit "bar"].
Proof.
  refine (X12_script_splits_back [lit "foo"; []; lit "bar"] [lit "USG6000F"]
            [lit "display this"] _ _).
  - done.
  - apply (bool_decide_unpack _). vm_compute. reflexivity.
Defined.

Lemma X13_extraction_round_trip_witness :
  extract_automation_lines no_repr
    (response_of
       {[lit "a" := success_entry (Py.join NL [lit "foo"; lit "bar baz"])]})
  = Ok [lit "foo"; lit "bar baz"].
Proof.
  refine (X13_extraction_round_trip no_repr (lit "a")
            [lit "foo"; lit "bar baz"] _).
  apply (bool_decide_unpack _). vm_compute. reflexivity.
Defined.

Lemma X14_file_commands_shape_witness :
  Forall (λ c, c ≠ [] /\ Py.strip c = c
               /\ Forall (λ x, Py.islinebreak x = false) c
               /\ Py.startswith c (lit "#") = false)
         [lit "display this"; lit "system-view"].
Proof.
  refine (X14_file_commands_shape
            (with_file (lit "commands.txt") commands_txt)
            (lit "commands.txt") [lit "display this"; lit "system-view"] _).
  vm_compute. reflexivity.
Defined.

Lemma X15_file_commands_block_witness :
  exists body block,
    req_json (ddt_request [lit "display this"; lit "system-view"]
                [lit "USG6000F"] 60) = JObj body
    /\ body !! lit "block_clis" = Some (JArr [JStr block])
    /\ Py.splitlines block = [lit "display this"; lit "system-view"].
Proof.
  refine (X15_file_commands_block
            (with_file (lit "commands.txt") commands_txt)
            (lit "commands.txt") [lit "display this"; lit "system-view"]
            [lit "USG6000F"] 60 _).
  vm_compute. reflexivity.
Defined.

Lemma X16_reading_is_idempotent_witness :
  read_cli_from_file
    (with_file (lit "clean.txt")
       (Py.join NL [lit "display this"; lit "system-view"]))
    (lit "clean.txt")
  = Ok [lit "display this"; lit "system-view"].
Proof.
  refine (X16_reading_is_idempotent
            (with_file (lit "commands.txt") commands_txt)
            (with_file (lit "clean.txt")
               (Py.join NL [lit "display this"; lit "system-view"]))
            (lit "commands.txt") (lit "clean.txt")
            [lit "display this"; lit "system-view"] _ _ _);
    vm_compute; reflexivity.
Defined.

Lemma X18_empty_output_is_ignored_witness :
  main no_repr no_repr (answering 200 (JObj bare_success_fields))
    empty_output_args
  = main no_repr no_repr (answering 200 (JObj bare_success_fields))
      (without_output empty_output_args).
Proof.
  refine (X18_empty_output_is_ignored no_repr no_repr
            (answering 200 (JObj bare_success_fields)) empty_output_args _).
  reflexivity.
Defined.

Lemma X19_all_entries_failed_witness :
  exists lines,
    extract_automation_lines no_repr (response_of result_all_failed) = Ok lines
    /\ length lines = size result_all_failed
    /\ Forall (λ l, exists msg, l = lit "# ERROR: " ++ msg) lines.
Proof.
  refine (X19_all_entries_failed no_repr (response_fields result_all_failed)
            result_all_failed _ _).
  - vm_compute. reflexivity.
  - intros key entry H. unfold result_all_failed in H.
    apply lookup_insert_Some in H as [[_ <-]|[_ H]].
    + eexists. split; [reflexivity|]. vm_compute. discriminate.
    + apply lookup_singleton_Some in H as [_ <-].
      eexists. split; [reflexivity|]. vm_compute. discriminate.
Defined.

Lemma X20_nothing_but_whitespace_witness :
  extract_automation_lines no_repr
    (response_of {[lit "a" := success_entry blank_blob]}) = Ok []
  /\ render_output no_repr no_repr
       (direct_args [lit "USG6000F"] [lit "display this"])
       (response_of {[lit "a" := success_entry blank_blob]})
       [lit "display this"]
     = Ok (lit "# No automation lines generated" ++ NL).
Proof.
  refine (X20_nothing_but_whitespace no_repr no_repr
            (direct_args [lit "USG6000F"] [lit "display this"])
            (response_fields {[lit "a" := success_entry blank_blob]})
            {[lit "a" := success_entry blank_blob]}
            [lit "display this"] _ _ _).
  - reflexivity.
  - vm_compute. reflexivity.
  - intros key entry H. apply lookup_singleton_Some in H as [_ <-].
    eexists. split; [reflexivity|]. split; [vm_compute; reflexivity|].
    right. exists blank_blob. split; [vm_compute; reflexivity|].
    apply (bool_decide_unpack _). vm_compute. reflexivity.
Defined.
